(** * Release build job: a shallow embedding of [scripts/jobs/build-release.js]

    The job drives one release record through the external build pipeline.
    The embedding keeps the shape of the JavaScript: the pure helpers
    ([getBuildName], [getReasonFromPublishLog]) are plain functions on
    strings, and the asynchronous methods of [ReleaseBuilder] are programs
    of a small state-and-exception monad that records every interaction
    with the outside world (record store, pipeline service, log fetcher,
    timer, logger) in a trace. *)

From Stdlib Require Import String Ascii List ZArith Lia Bool Arith.
From Stdlib Require Import DecimalString Sorted.
Import ListNotations.

Local Open Scope string_scope.

(** ** JavaScript string primitives used by the job

    A Rocq character stands for one UTF-16 code unit of the JavaScript
    string; package names, versions and log markers are ASCII. *)

Module JsString.

(** [s.startsWith(p)] *)
Definition startsWith (p s : string) : bool := String.prefix p s.

(** [s.includes(p)]: [p] occurs at some offset of [s]. *)
Fixpoint includes (p s : string) : bool :=
  String.prefix p s ||
  match s with
  | EmptyString => false
  | String _ rest => includes p rest
  end.

(** [s.substr(start, len)] for non-negative arguments. *)
Definition substr (start len : nat) (s : string) : string :=
  String.substring start len s.

(** [s.substr(start)]: everything from [start] on. *)
Definition substr_from (start : nat) (s : string) : string :=
  String.substring start (String.length s) s.

(** [s.replace(/[...]/g, r)] for a character class given as a test on
    characters and a one-character replacement. *)
Fixpoint replace_class (cls : ascii -> bool) (r : ascii) (s : string) : string :=
  match s with
  | EmptyString => EmptyString
  | String c rest =>
      String (if cls c then r else c) (replace_class cls r rest)
  end.

(** ['' + n] for an integer [n] below 10^21 in absolute value: its
    decimal numeral. *)
Definition of_int (n : Z) : string := NilZero.string_of_int (Z.to_int n).

End JsString.

(** ** [getBuildName] (source lines 165-174) *)

(** The character class of the regular expression
    [/[\/:<>\\|\?@\*]/g]. *)
Definition illegal_chars : list ascii :=
  ["/"; ":"; "<"; ">"; "\"; "|"; "?"; "@"; "*"]%char.

Definition is_illegal (c : ascii) : bool :=
  existsb (Ascii.eqb c) illegal_chars.

Definition getBuildName (releaseId : Z) (packageName packageVer : string) : string :=
  let buildName := packageName ++ "#" ++ packageVer in
  let buildName :=
    if JsString.startsWith "@" buildName
    then JsString.substr_from 1 buildName
    else buildName in
  let buildName := "rel#" ++ JsString.of_int releaseId ++ "-" ++ buildName in
  let buildName := JsString.replace_class is_illegal "_"%char buildName in
  JsString.substr 0 (255 - 55) buildName.

(** The build name as the specification words it: strip a leading [@] of
    the package name, compose [rel#<id>-<name>#<version>], replace the
    illegal characters, truncate to 200. *)
Definition strip_scope (packageName : string) : string :=
  match packageName with
  | String "@"%char rest => rest
  | _ => packageName
  end.

Definition build_name_spec (releaseId : Z) (packageName packageVer : string) : string :=
  JsString.substr 0 200
    (JsString.replace_class is_illegal "_"%char
       ("rel#" ++ JsString.of_int releaseId ++ "-"
          ++ strip_scope packageName ++ "#" ++ packageVer)).

Definition chars (s : string) : list ascii := list_ascii_of_string s.

(** ** Release reasons and [getReasonFromPublishLog] (source lines 103-113) *)

(** Modelled from the spec: the [ReleaseReason] constants of
    [app/models/common], which is not part of the sources.  The
    specification lists the values empty, timeout, publishConflict,
    nonPackage, badGateway, serverError; [RNone] is the empty string the
    job uses for an unclassified failure. *)
Inductive ReleaseReason : Type :=
| RNone
| timeout
| publishConflict
| nonPackage
| badGateway
| serverError.

Definition reason_eqb (a b : ReleaseReason) : bool :=
  match a, b with
  | RNone, RNone | timeout, timeout | publishConflict, publishConflict
  | nonPackage, nonPackage | badGateway, badGateway
  | serverError, serverError => true
  | _, _ => false
  end.

Definition getReasonFromPublishLog (text : string) : ReleaseReason :=
  if JsString.includes "EPUBLISHCONFLICT" text then publishConflict
  else if JsString.includes "ENOENT" text
          && JsString.includes "error path package.json" text then nonPackage
  else if JsString.includes "error code E502" text then badGateway
  else if JsString.includes "error code E500" text then serverError
  else RNone.

(** The classifier as the specification words it: an ordered table of
    rules, scanned front to back, the first rule whose markers all occur
    in the text decides. *)
Definition classification_rules : list (list string * ReleaseReason) :=
  [ (["EPUBLISHCONFLICT"], publishConflict);
    (["ENOENT"; "error path package.json"], nonPackage);
    (["error code E502"], badGateway);
    (["error code E500"], serverError) ].

Definition rule_matches (text : string) (rule : list string * ReleaseReason) : bool :=
  forallb (fun marker => JsString.includes marker text) (fst rule).

Definition classify_spec (text : string) : ReleaseReason :=
  match find (rule_matches text) classification_rules with
  | Some rule => snd rule
  | None => RNone
  end.

(** ** Data model *)

(** Modelled from the spec: the [ReleaseState] constants of
    [app/models/common], which is not part of the sources.  The
    specification lists pending, building, succeeded, failed. *)
Inductive ReleaseState : Type :=
| pending
| building
| succeeded
| failed.

Definition state_eqb (a b : ReleaseState) : bool :=
  match a, b with
  | pending, pending | building, building
  | succeeded, succeeded | failed, failed => true
  | _, _ => false
  end.

(** The attributes of a release row the job reads or writes. *)
Module Release.
Record t : Type := mk {
  id : Z;
  package_id : Z;
  version : string;
  tag : string;
  state : ReleaseState;
  build_id : string;
  reason : ReleaseReason;
  publish_log : option string
}.
End Release.

Module Package.
Record t : Type := mk { name : string; project_id : Z }.
End Package.

Module Project.
Record t : Type := mk { gitUrl : string }.
End Project.

(** [BuildStatus] and [BuildResult] of azure-devops-node-api. *)
Inductive BuildStatus : Type :=
| StatusNone | InProgress | Completed | Cancelling | Postponed | NotStarted | StatusAll.

Inductive BuildResult : Type :=
| ResultNone | Succeeded | PartiallySucceeded | Failed | Canceled.

Definition status_eqb (a b : BuildStatus) : bool :=
  match a, b with
  | StatusNone, StatusNone | InProgress, InProgress | Completed, Completed
  | Cancelling, Cancelling | Postponed, Postponed | NotStarted, NotStarted
  | StatusAll, StatusAll => true
  | _, _ => false
  end.

Definition result_eqb (a b : BuildResult) : bool :=
  match a, b with
  | ResultNone, ResultNone | Succeeded, Succeeded
  | PartiallySucceeded, PartiallySucceeded | Failed, Failed
  | Canceled, Canceled => true
  | _, _ => false
  end.

(** The build object of the pipeline service; [result] is [None] while
    the JavaScript property is [undefined]. *)
Module Build.
Record t : Type := mk {
  id : Z;
  status : BuildStatus;
  result : option BuildResult
}.
End Build.

(** [build.result == BuildResult.X]; [undefined] equals no constant. *)
Definition result_is (r : option BuildResult) (x : BuildResult) : bool :=
  match r with
  | Some y => result_eqb y x
  | None => false
  end.

(** The object literal handed to [release.update]: the fields that are
    present are written, the others are left alone. *)
Record Fields : Type := mkFields {
  set_state : option ReleaseState;
  set_build_id : option string;
  set_reason : option ReleaseReason;
  set_publish_log : option string
}.

Definition no_fields : Fields := mkFields None None None None.

Definition or_keep {A : Type} (new : option A) (old : A) : A :=
  match new with
  | Some v => v
  | None => old
  end.

(** Modelled from the spec: [Release.update] of [app/models/release],
    which is not part of the sources.  The record store applies a partial
    field update as one atomic operation; the fields named in the literal
    change, every other attribute keeps its value. *)
Definition apply_fields (f : Fields) (r : Release.t) : Release.t :=
  Release.mk (Release.id r) (Release.package_id r) (Release.version r) (Release.tag r)
    (or_keep (set_state f) (Release.state r))
    (or_keep (set_build_id f) (Release.build_id r))
    (or_keep (set_reason f) (Release.reason r))
    (match set_publish_log f with
     | Some text => Some text
     | None => Release.publish_log r
     end).

(** The [parameters] payload of [queueBuild]. *)
Record BuildParameters : Type := mkParameters {
  repo_url : string;
  repo_branch : string;
  package_name : string;
  package_ver : string;
  build_name : string
}.

(** What the logger is told; the template strings are kept as data. *)
Inductive LogMessage : Type :=
| SkipForState (id : Z) (s : ReleaseState)
| CreatePipelines (id : Z)
| CheckPipelines (id : Z) (build_id : string)
| PollStatus (id : Z) (build_id : string) (status : BuildStatus)
    (result : option BuildResult) (retries : nat)
| PipelinesSucceeded (id : Z) (build_id : string)
| PipelinesFailed (id : Z) (build_id : string) (status : BuildStatus)
    (result : option BuildResult) (reason : ReleaseReason).

(** The errors the job throws. *)
Inductive Error : Type :=
| PipelinesTimeout (id : Z) (build_id : string)
| PipelinesFailedError (id : Z) (build_id : string) (status : BuildStatus)
    (result : option BuildResult)
| ReleaseNotFound (id : Z).

(** Every interaction with a collaborator, in the order it is awaited. *)
Inductive Event : Type :=
| FetchRelease (id : Z)
| UpdateRelease (id : Z) (fields : Fields)
| FetchPackage (id : Z)
| FetchProject (id : Z)
| GetBuildApi
| QueueBuild (definitionId : Z) (parameters : BuildParameters) (project : string)
| GetBuild (project : string) (build_id : string)
| FetchText (url : string)
| Sleep (ms : Z)
| LogInfo (m : LogMessage)
| LogError (m : LogMessage).

(** [config.azureDevops]: the values the job reads.  [retries] bounds a
    loop counter that starts at 0; the two delays are milliseconds. *)
Record Config : Type := mkConfig {
  definitionId : Z;
  project : string;
  duration : Z;
  retries : nat;
  retryIntervalStep : Z
}.

(** The collaborators, as scripted answers: the record store's rows, the
    build the pipeline returns from [queueBuild], its answer to the n-th
    [getBuild] call, and the text behind the publish result url.  Every
    call is answered; a collaborator that rejects is outside the model.
    [buildPublishResultUrl] is the getter of the release model, which is
    not part of the sources, and is left abstract. *)
Record Env : Type := mkEnv {
  releases : Z -> option Release.t;
  packages : Z -> Package.t;
  projects : Z -> Project.t;
  queued : Build.t;
  builds : nat -> Build.t;
  buildPublishResultUrl : Release.t -> string;
  publish_text : string
}.

(** ** The job monad: builder state, trace, exceptions *)

(** [release] is [this.release]; [update] keeps it equal to the persisted
    row.  [polls] counts the [getBuild] calls made so far. *)
Record World : Type := mkWorld {
  release : Release.t;
  trace : list Event;
  polls : nat
}.

Inductive Outcome (A : Type) : Type :=
| Returned (a : A)
| Thrown (e : Error).
Arguments Returned {A} a.
Arguments Thrown {A} e.

Definition Job (A : Type) : Type := World -> Outcome A * World.

Definition ret {A : Type} (a : A) : Job A := fun w => (Returned a, w).

Definition bind {A B : Type} (c : Job A) (k : A -> Job B) : Job B :=
  fun w =>
    match c w with
    | (Returned a, w') => k a w'
    | (Thrown e, w') => (Thrown e, w')
    end.

Definition throw {A : Type} (e : Error) : Job A := fun w => (Thrown e, w).

Declare Scope job_scope.
Delimit Scope job_scope with job.
Notation "x <- c ;; k" := (bind c (fun x => k))
  (at level 61, c at next level, right associativity) : job_scope.
Notation "c ;; k" := (bind c (fun _ => k))
  (at level 61, right associativity) : job_scope.
Local Open Scope job_scope.

Definition emit (e : Event) : Job unit :=
  fun w => (Returned tt, mkWorld (release w) (trace w ++ [e]) (polls w)).

Definition this_release : Job Release.t :=
  fun w => (Returned (release w), w).

Definition new_builder (r : Release.t) : World := mkWorld r [] 0.

(** ** [ReleaseBuilder] (source lines 28-163) and [buildRelease] *)

(** JavaScript truthiness of a string: only the empty string is falsy. *)
Definition falsy (s : string) : bool :=
  match s with
  | EmptyString => true
  | String _ _ => false
  end.

(** [status == Completed || status == Cancelling] *)
Definition terminal (b : Build.t) : bool :=
  status_eqb (Build.status b) Completed || status_eqb (Build.status b) Cancelling.

Section Builder.

Variable cfg : Config.
Variable env : Env.

(** [await this.release.update(fields)] *)
Definition update (f : Fields) : Job unit :=
  fun w =>
    (Returned tt,
     mkWorld (apply_fields f (release w))
             (trace w ++ [UpdateRelease (Release.id (release w)) f])
             (polls w)).

(** [await sleep(ms)] *)
Definition sleep (ms : Z) : Job unit := emit (Sleep ms).

(** [await this.getBuildApi()]: the handle itself carries no data the
    job inspects. *)
Definition getBuildApi : Job unit := emit GetBuildApi.

(** [await this.buildApi.getBuild(project, build_id)] *)
Definition getBuild (prj bid : string) : Job Build.t :=
  fun w =>
    (Returned (builds env (polls w)),
     mkWorld (release w) (trace w ++ [GetBuild prj bid]) (S (polls w))).

(** [await this.buildApi.queueBuild(request, project)] *)
Definition queueBuild (def : Z) (p : BuildParameters) (prj : string) : Job Build.t :=
  emit (QueueBuild def p prj) ;; ret (queued env).

(** Source lines 97-100. *)
Definition getPublishLog : Job string :=
  r <- this_release ;;
  emit (FetchText (buildPublishResultUrl env r)) ;;
  ret (publish_text env).

(** Source lines 116-136. *)
Definition CreateBuildPipelines : Job Build.t :=
  r <- this_release ;;
  emit (LogInfo (CreatePipelines (Release.id r))) ;;
  emit (FetchPackage (Release.package_id r)) ;;
  let pkg := packages env (Release.package_id r) in
  emit (FetchProject (Package.project_id pkg)) ;;
  let prj := projects env (Package.project_id pkg) in
  r <- this_release ;;
  queueBuild (definitionId cfg)
    (mkParameters (Project.gitUrl prj) (Release.tag r) (Package.name pkg)
       (Release.version r)
       (getBuildName (Release.id r) (Package.name pkg) (Release.version r)))
    (project cfg).

(** The [for] loop of source lines 142-152 with [n] iterations left and
    loop variable [i]; it runs while [i < retries], so it starts as
    [check_loop retries 0]. *)
Fixpoint check_loop (n i : nat) : Job (option Build.t) :=
  match n with
  | O => ret None
  | S n' =>
      r <- this_release ;;
      build <- getBuild (project cfg) (Release.build_id r) ;;
      r <- this_release ;;
      emit (LogInfo (PollStatus (Release.id r) (Release.build_id r)
                       (Build.status build) (Build.result build) i)) ;;
      if terminal build then ret (Some build)
      else
        sleep (retryIntervalStep cfg * Z.of_nat (i + 1)) ;;
        check_loop n' (S i)
  end.

(** Source lines 140-154; [null] is [None]. *)
Definition checkBuildPipelines : Job (option Build.t) :=
  r <- this_release ;;
  emit (LogInfo (CheckPipelines (Release.id r) (Release.build_id r))) ;;
  check_loop (retries cfg) 0.

(** Source lines 35-94.  The enum name lookups of lines 81-84 cannot
    fail on the closed enumerations above. *)
Definition build : Job unit :=
  r <- this_release ;;
  if state_eqb (Release.state r) succeeded then
    emit (LogInfo (SkipForState (Release.id r) (Release.state r)))
  else
    (if state_eqb (Release.state r) failed && reason_eqb (Release.reason r) timeout
     then update (mkFields (Some building) None None None)
     else if state_eqb (Release.state r) pending || state_eqb (Release.state r) failed
     then update (mkFields (Some building) (Some "") None None)
     else ret tt) ;;
    getBuildApi ;;
    r <- this_release ;;
    (if falsy (Release.build_id r) then
       b <- CreateBuildPipelines ;;
       update (mkFields None (Some (JsString.of_int (Build.id b))) None None) ;;
       sleep (duration cfg)
     else ret tt) ;;
    polled <- checkBuildPipelines ;;
    match polled with
    | None =>
        update (mkFields (Some failed) None (Some timeout) None) ;;
        r <- this_release ;;
        throw (PipelinesTimeout (Release.id r) (Release.build_id r))
    | Some b =>
        if status_eqb (Build.status b) Completed && result_is (Build.result b) Succeeded
        then
          update (mkFields (Some succeeded) None None None) ;;
          r <- this_release ;;
          emit (LogInfo (PipelinesSucceeded (Release.id r) (Release.build_id r)))
        else
          update (mkFields (Some failed) None None None) ;;
          reason <-
            (if status_eqb (Build.status b) Completed && result_is (Build.result b) Failed
             then
               publishLog <- getPublishLog ;;
               let reason := getReasonFromPublishLog publishLog in
               update (mkFields None None (Some reason) (Some publishLog)) ;;
               ret reason
             else ret RNone) ;;
          r <- this_release ;;
          if negb (reason_eqb reason badGateway) && negb (reason_eqb reason serverError)
          then
            emit (LogError (PipelinesFailed (Release.id r) (Release.build_id r)
                              (Build.status b) (Build.result b) reason))
          else
            throw (PipelinesFailedError (Release.id r) (Release.build_id r)
                     (Build.status b) (Build.result b))
    end.

(** Modelled from the spec: [Release.fetchOne] of [app/models/release],
    which is not part of the sources: one read of the record store by
    id; a missing row is reported as an error. *)
Definition fetchOne (id : Z) : list Event * option Release.t :=
  ([FetchRelease id], releases env id).

(** Source lines 21-25: what the job did, and what it left in the
    builder. *)
Definition buildRelease (id : Z) : Outcome unit * list Event * option Release.t :=
  match fetchOne id with
  | (evs, None) => (Thrown (ReleaseNotFound id), evs, None)
  | (evs, Some r) =>
      match build (mkWorld r evs 0) with
      | (o, w) => (o, trace w, Some (release w))
      end
  end.

(** [build] on a builder freshly constructed around [r]. *)
Definition run (r : Release.t) : Outcome unit * World := build (new_builder r).

End Builder.

(** ** Observations on traces *)

(** The rows the record store held after each update, oldest first, when
    the row was [r] before the trace. *)
Fixpoint persisted (r : Release.t) (tr : list Event) : list Release.t :=
  match tr with
  | [] => []
  | UpdateRelease _ f :: rest => apply_fields f r :: persisted (apply_fields f r) rest
  | _ :: rest => persisted r rest
  end.

(** Calls that leave the process: everything but the logger. *)
Definition is_external (e : Event) : bool :=
  match e with
  | LogInfo _ | LogError _ => false
  | _ => true
  end.

Definition is_queue (e : Event) : bool :=
  match e with QueueBuild _ _ _ => true | _ => false end.

(** The build ids the pipeline was asked about, in order. *)
Fixpoint polled_ids (tr : list Event) : list string :=
  match tr with
  | [] => []
  | GetBuild _ bid :: rest => bid :: polled_ids rest
  | _ :: rest => polled_ids rest
  end.

(** The timer waits, in order. *)
Fixpoint sleeps (tr : list Event) : list Z :=
  match tr with
  | [] => []
  | Sleep ms :: rest => ms :: sleeps rest
  | _ :: rest => sleeps rest
  end.

(** The number of leading non-terminal answers among the [n] answers
    starting at answer [p]. *)
Fixpoint pending_polls (env : Env) (p n : nat) : nat :=
  match n with
  | O => O
  | S n' => if terminal (builds env p) then O else S (pending_polls env (S p) n')
  end.

(** One unsuccessful attempt per index [i .. i+k-1]: fetch, log, wait. *)
Fixpoint attempts (cfg : Config) (env : Env) (r : Release.t) (i p k : nat) : list Event :=
  match k with
  | O => []
  | S k' =>
      GetBuild (project cfg) (Release.build_id r)
      :: LogInfo (PollStatus (Release.id r) (Release.build_id r)
                    (Build.status (builds env p)) (Build.result (builds env p)) i)
      :: Sleep (retryIntervalStep cfg * Z.of_nat (i + 1))
      :: attempts cfg env r (S i) (S p) k'
  end.

(** The attempt that finds a terminal build: fetch and log, no wait. *)
Definition last_attempt (cfg : Config) (env : Env) (r : Release.t) (i p : nat) : list Event :=
  [ GetBuild (project cfg) (Release.build_id r);
    LogInfo (PollStatus (Release.id r) (Release.build_id r)
               (Build.status (builds env p)) (Build.result (builds env p)) i) ].

(** The events of the whole polling loop started with loop variable [i]
    at answer [p] with [n] iterations left, the value it returns, and the
    number of [getBuild] calls it makes. *)
Definition poll_events (cfg : Config) (env : Env) (r : Release.t) (i p n : nat) : list Event :=
  let k := pending_polls env p n in
  (attempts cfg env r i p k
     ++ (if Nat.ltb k n then last_attempt cfg env r (i + k) (p + k) else []))%list.

Definition poll_answer (env : Env) (p n : nat) : option Build.t :=
  let k := pending_polls env p n in
  if Nat.ltb k n then Some (builds env (p + k)) else None.

Definition poll_count (env : Env) (p n : nat) : nat :=
  let k := pending_polls env p n in
  if Nat.ltb k n then S k else k.

(** Polling, started with no [getBuild] call made yet, sees [k]
    non-terminal answers and then the terminal build [b], within the
    retry budget. *)
Definition polling_ends (cfg : Config) (env : Env) (k : nat) (b : Build.t) : Prop :=
  k < retries cfg
  /\ (forall j, j < k -> terminal (builds env j) = false)
  /\ builds env k = b
  /\ terminal b = true.

Definition ends_with (tr suffix : list Event) : Prop :=
  exists before, tr = (before ++ suffix)%list.

Definition starts_with (tr prefix : list Event) : Prop :=
  exists rest, tr = (prefix ++ rest)%list.

(** The request [CreateBuildPipelines] sends for release [r]. *)
Definition build_request (cfg : Config) (env : Env) (r : Release.t) : Event :=
  let pkg := packages env (Release.package_id r) in
  let prj := projects env (Package.project_id pkg) in
  QueueBuild (definitionId cfg)
    (mkParameters (Project.gitUrl prj) (Release.tag r) (Package.name pkg)
       (Release.version r)
       (getBuildName (Release.id r) (Package.name pkg) (Release.version r)))
    (project cfg).

(** The events from the request for a new build up to the first poll,
    where [bid] is the id the pipeline returned. *)
Definition queue_events (cfg : Config) (env : Env) (r : Release.t) (bid : string) : list Event :=
  [ GetBuildApi;
    LogInfo (CreatePipelines (Release.id r));
    FetchPackage (Release.package_id r);
    FetchProject (Package.project_id (packages env (Release.package_id r)));
    build_request cfg env r;
    UpdateRelease (Release.id r) (mkFields None (Some bid) None None);
    Sleep (duration cfg);
    LogInfo (CheckPipelines (Release.id r) bid) ].

(** The property that a failed outcome is written in one piece: no row
    the record store ever held is in state failed without carrying the
    classified reason and the fetched log. *)
Definition failure_written_together (env : Env) (r : Release.t) (tr : list Event) : Prop :=
  Forall
    (fun row =>
       Release.state row = failed ->
       Release.reason row = getReasonFromPublishLog (publish_text env)
       /\ Release.publish_log row = Some (publish_text env))
    (persisted r tr).

(** No call left the process. *)
Definition no_external_calls (tr : list Event) : Prop :=
  filter is_external tr = [].

(** ** Concrete scenarios *)

Module Scenario.

Definition cfg : Config := mkConfig 1 "openupm" 5000 3 1000.

Definition rel (s : ReleaseState) (bid : string) (why : ReleaseReason) : Release.t :=
  Release.mk 7 3 "1.2.3" "v1.2.3" s bid why None.

Definition in_progress : Build.t := Build.mk 55 InProgress None.
Definition completed_failed : Build.t := Build.mk 55 Completed (Some Failed).

(** One answer in progress, then completed and failed. *)
Definition fails_on_second (n : nat) : Build.t :=
  match n with
  | O => in_progress
  | S _ => completed_failed
  end.

Definition never_done (n : nat) : Build.t := in_progress.

Definition env (stored : Release.t) (answers : nat -> Build.t) (text : string) : Env :=
  mkEnv (fun id => if Z.eqb id (Release.id stored) then Some stored else None)
        (fun _ => Package.mk "@scope/pkg" 9)
        (fun _ => Project.mk "https://example.org/pkg.git")
        (Build.mk 55 NotStarted None)
        answers
        (fun r => "https://example.org/log/" ++ Release.build_id r)
        text.

Definition bad_gateway_log : string := "npm ERR! error code E502".
Definition conflict_log : string := "npm ERR! code EPUBLISHCONFLICT".
Definition both_markers_log : string :=
  "npm ERR! error code E502 npm ERR! code EPUBLISHCONFLICT".

Definition r_pending : Release.t := rel pending "" RNone.
Definition r_timed_out : Release.t := rel failed "41" timeout.
Definition r_timed_out_unbuilt : Release.t := rel failed "" timeout.
Definition r_conflict : Release.t := rel failed "41" publishConflict.
Definition r_succeeded : Release.t := rel succeeded "55" RNone.

(** A pending release whose build never finishes within the budget. *)
Definition stalled : Env := env r_pending never_done "".
(** A pending release whose build fails on a publish conflict. *)
Definition conflicting : Env := env r_pending fails_on_second conflict_log.
(** A pending release whose build fails behind a bad gateway. *)
Definition gateway_down : Env := env r_pending fails_on_second bad_gateway_log.
(** A timed-out release that still has its build. *)
Definition resumed : Env := env r_timed_out fails_on_second conflict_log.
(** A release that failed on a conflict and is built again. *)
Definition requeued : Env := env r_conflict fails_on_second conflict_log.
(** A timed-out release that never got a build id. *)
Definition restarted : Env := env r_timed_out_unbuilt never_done "".
(** A release that is already published. *)
Definition finished : Env := env r_succeeded never_done "".

Definition completed_succeeded : Build.t := Build.mk 55 Completed (Some Succeeded).
Definition cancelling : Build.t := Build.mk 55 Cancelling None.

Definition succeeds_on_second (n : nat) : Build.t :=
  match n with
  | O => in_progress
  | S _ => completed_succeeded
  end.

Definition cancelled_on_second (n : nat) : Build.t :=
  match n with
  | O => in_progress
  | S _ => cancelling
  end.

Definition r_building : Release.t := rel building "41" RNone.
Definition r_building_unbuilt : Release.t := rel building "" RNone.

(** A pending release whose build succeeds on the second poll. *)
Definition publishing : Env := env r_pending succeeds_on_second "".
(** A timed-out release whose build is being cancelled. *)
Definition cancelled : Env := env r_timed_out cancelled_on_second "".
(** A release left in state building by an interrupted run. *)
Definition interrupted : Env := env r_building fails_on_second conflict_log.
(** The same, interrupted before a build id was written. *)
Definition interrupted_early : Env := env r_building_unbuilt fails_on_second conflict_log.

(** A configuration with no polling attempt at all. *)
Definition cfg_no_retries : Config := mkConfig 1 "openupm" 5000 0 1000.

End Scenario.

(** * Properties *)

(** ** Strings, build names and the classifier *)

Module StringFacts.

Lemma prefix_empty s : String.prefix "" s = true.
Proof. destruct s; reflexivity. Qed.

Lemma substring_all s : forall n, String.length s <= n -> String.substring 0 n s = s.
Proof.
  induction s as [|c s IH]; intros [|n] H; simpl in *; try reflexivity; try lia.
  rewrite IH by lia. reflexivity.
Qed.

Lemma substr_length n s : String.length (JsString.substr 0 n s) <= n.
Proof.
  unfold JsString.substr. revert s.
  induction n as [|n IH]; intros [|c s]; simpl; try lia.
  specialize (IH s). lia.
Qed.

Lemma substr_chars n : forall s c,
  In c (chars (JsString.substr 0 n s)) -> In c (chars s).
Proof.
  unfold JsString.substr, chars.
  induction n as [|n IH]; intros [|a s] c; simpl; auto.
  - contradiction.
  - intros [H|H]; [left; exact H | right; apply IH; exact H].
Qed.

Lemma replace_class_chars cls r s c :
  cls r = false ->
  In c (chars (JsString.replace_class cls r s)) -> cls c = false.
Proof.
  intros Hr. unfold chars.
  induction s as [|a s IH]; simpl; [contradiction|].
  intros [H|H]; [|apply IH; exact H].
  subst c. destruct (cls a) eqn:E; [exact Hr | exact E].
Qed.

Lemma is_illegal_spec c : is_illegal c = true <-> In c illegal_chars.
Proof.
  unfold is_illegal. rewrite existsb_exists. split.
  - intros [x [Hin Heq]]. apply Ascii.eqb_eq in Heq. subst x. exact Hin.
  - intros H. exists c. split; [exact H | apply Ascii.eqb_refl].
Qed.

Lemma strip_scope_other c s : c <> "@"%char -> strip_scope (String c s) = String c s.
Proof.
  intros H. destruct c as [[] [] [] [] [] [] [] []]; try reflexivity.
  exfalso. apply H. reflexivity.
Qed.

End StringFacts.

Lemma getBuildName_refines id name ver :
  getBuildName id name ver = build_name_spec id name ver.
Proof.
  unfold getBuildName, build_name_spec, JsString.startsWith.
  change (255 - 55) with 200.
  destruct name as [|c name]; [reflexivity|].
  cbn [String.append String.prefix].
  destruct (ascii_dec "@" c) as [<-|Hne].
  - cbn [String.prefix]. unfold JsString.substr_from.
    cbn [String.length String.substring strip_scope].
    rewrite StringFacts.prefix_empty.
    rewrite (StringFacts.substring_all (name ++ String "#" ver)) by lia. reflexivity.
  - rewrite StringFacts.strip_scope_other by congruence. reflexivity.
Qed.

Lemma getBuildName_length id name ver :
  String.length (getBuildName id name ver) <= 200.
Proof. unfold getBuildName. apply StringFacts.substr_length. Qed.

Lemma getBuildName_clean id name ver c :
  In c (chars (getBuildName id name ver)) -> ~ In c illegal_chars.
Proof.
  unfold getBuildName. intros H Hill.
  apply StringFacts.substr_chars in H.
  apply StringFacts.replace_class_chars in H; [|reflexivity].
  apply StringFacts.is_illegal_spec in Hill. congruence.
Qed.

(** C9. The build name is a function of its three inputs alone; it is the
    name the specification describes (leading [@] of the package name
    stripped, [rel#<id>-<name>#<version>] composed, the characters
    [/ : < > \ | ? @ *] replaced by [_], cut to 200 characters), it is never
    longer than 200 characters and holds none of the replaced characters;
    for (42, [@scope/pkg], [1.2.3]) it is [rel#42-scope_pkg#1.2.3]. *)
Theorem getBuildName_spec :
  forall (id : Z) (name ver : string),
    getBuildName id name ver = build_name_spec id name ver
    /\ String.length (getBuildName id name ver) <= 200
    /\ (forall c, In c (chars (getBuildName id name ver)) -> ~ In c illegal_chars)
    /\ getBuildName 42 "@scope/pkg" "1.2.3" = "rel#42-scope_pkg#1.2.3"
    /\ JsString.startsWith "rel#42-" (getBuildName 42 "@scope/pkg" "1.2.3") = true.
Proof.
  intros id name ver. repeat split.
  - apply getBuildName_refines.
  - apply getBuildName_length.
  - apply getBuildName_clean.
Qed.

Lemma classifier_refines text : getReasonFromPublishLog text = classify_spec text.
Proof.
  unfold getReasonFromPublishLog, classify_spec, classification_rules, rule_matches.
  cbn [find forallb fst snd].
  repeat rewrite andb_true_r.
  destruct (JsString.includes "EPUBLISHCONFLICT" text); [reflexivity|].
  destruct (JsString.includes "ENOENT" text && JsString.includes "error path package.json" text);
    [reflexivity|].
  destruct (JsString.includes "error code E502" text); [reflexivity|].
  destruct (JsString.includes "error code E500" text); reflexivity.
Qed.

(** C8. The classifier agrees with the ordered rule table publishConflict,
    nonPackage, badGateway, serverError scanned front to back (empty when
    no rule matches); a text holding both [EPUBLISHCONFLICT] and
    [error code E502] is classified publishConflict. *)
Theorem classifier_priority :
  forall text : string,
    getReasonFromPublishLog text = classify_spec text
    /\ (JsString.includes "EPUBLISHCONFLICT" text = true ->
        JsString.includes "error code E502" text = true ->
        getReasonFromPublishLog text = publishConflict).
Proof.
  intros text. split; [apply classifier_refines|].
  intros Hc _. unfold getReasonFromPublishLog. rewrite Hc. reflexivity.
Qed.

Lemma classifier_priority_witness :
  JsString.includes "EPUBLISHCONFLICT" Scenario.both_markers_log = true
  /\ JsString.includes "error code E502" Scenario.both_markers_log = true
  /\ getReasonFromPublishLog Scenario.both_markers_log = publishConflict.
Proof.
  split; [reflexivity|]. split; [reflexivity|].
  apply (proj2 (classifier_priority Scenario.both_markers_log)); reflexivity.
Defined.

(** ** The polling loop *)

Section Polling.

Variable cfg : Config.
Variable env : Env.

Lemma pending_polls_le : forall n p, pending_polls env p n <= n.
Proof.
  induction n as [|n IH]; intros p; cbn; [lia|].
  destruct (terminal (builds env p)); [lia|]. specialize (IH (S p)). lia.
Qed.

Lemma pending_polls_first : forall k n p,
  k <= n ->
  (forall j, j < k -> terminal (builds env (p + j)) = false) ->
  (k < n -> terminal (builds env (p + k)) = true) ->
  pending_polls env p n = k.
Proof.
  induction k as [|k IH]; intros [|n] p Hle Hpre Hk; cbn; try lia.
  - rewrite Nat.add_0_r in Hk. rewrite Hk by lia. reflexivity.
  - rewrite <- (Nat.add_0_r p) at 1. rewrite Hpre by lia. f_equal.
    apply IH; [lia| |].
    + intros j Hj. rewrite Nat.add_succ_comm. apply Hpre. lia.
    + intros Hlt. rewrite Nat.add_succ_comm. apply Hk. lia.
Qed.

(** The loop, run to its end: what it returns and what it leaves. *)
Lemma check_loop_run : forall n i w,
  check_loop cfg env n i w =
    (Returned (poll_answer env (polls w) n),
     mkWorld (release w)
             (trace w ++ poll_events cfg env (release w) i (polls w) n)
             (polls w + poll_count env (polls w) n)).
Proof.
  induction n as [|n IH]; intros i w.
  - unfold poll_answer, poll_events, poll_count. cbn.
    rewrite app_nil_r, Nat.add_0_r. destruct w; reflexivity.
  - cbn [check_loop]. unfold bind, this_release, getBuild, emit, sleep, ret. cbn.
    unfold poll_answer, poll_events, poll_count. cbn [pending_polls].
    destruct (terminal (builds env (polls w))) eqn:T.
    + cbn. rewrite !Nat.add_0_r, Nat.add_1_r. unfold last_attempt.
      rewrite <- !app_assoc. reflexivity.
    + rewrite IH. cbn [release trace polls].
      unfold poll_answer, poll_events, poll_count.
      set (k := pending_polls env (S (polls w)) n).
      rewrite !Nat.add_succ_r. cbn [Nat.add attempts].
      rewrite <- !app_assoc. cbn [app].
      unfold Nat.ltb. change (S (S k) <=? S n)%nat with (S k <=? n)%nat.
      destruct (S k <=? n)%nat; repeat f_equal; lia.
Qed.

Lemma poll_answer_exhausted :
  (forall j, j < retries cfg -> terminal (builds env j) = false) ->
  poll_answer env 0 (retries cfg) = None.
Proof.
  intros H. unfold poll_answer.
  rewrite (pending_polls_first (retries cfg) (retries cfg) 0);
    [rewrite Nat.ltb_irrefl; reflexivity|lia| |lia].
  intros j Hj. apply H. exact Hj.
Qed.

Lemma poll_answer_found k b :
  polling_ends cfg env k b -> poll_answer env 0 (retries cfg) = Some b.
Proof.
  intros (Hk & Hpre & Hb & Ht). unfold poll_answer.
  rewrite (pending_polls_first k (retries cfg) 0); cbn [Nat.add].
  - apply Nat.ltb_lt in Hk. rewrite Hk, Hb. reflexivity.
  - lia.
  - exact Hpre.
  - intros _. rewrite Hb. exact Ht.
Qed.

(** What the observers see of the loop's events. *)

Lemma persisted_attempts r' : forall k r i p l,
  persisted r (attempts cfg env r' i p k ++ l) = persisted r l.
Proof. induction k as [|k IH]; intros; cbn; [reflexivity|apply IH]. Qed.

Lemma persisted_poll_events r' r i p n l :
  persisted r (poll_events cfg env r' i p n ++ l) = persisted r l.
Proof.
  unfold poll_events. rewrite <- app_assoc, persisted_attempts.
  destruct (Nat.ltb _ _); reflexivity.
Qed.

Lemma queue_attempts r' : forall k i p l,
  filter is_queue (attempts cfg env r' i p k ++ l) = filter is_queue l.
Proof. induction k as [|k IH]; intros; cbn; [reflexivity|apply IH]. Qed.

Lemma queue_poll_events r' i p n l :
  filter is_queue (poll_events cfg env r' i p n ++ l) = filter is_queue l.
Proof.
  unfold poll_events. rewrite <- app_assoc, queue_attempts.
  destruct (Nat.ltb _ _); reflexivity.
Qed.

Lemma polled_attempts r' : forall k i p l,
  polled_ids (attempts cfg env r' i p k ++ l)
  = (repeat (Release.build_id r') k ++ polled_ids l)%list.
Proof.
  induction k as [|k IH]; intros; cbn; [reflexivity|].
  rewrite IH. reflexivity.
Qed.

Lemma polled_poll_events r' i p n l :
  polled_ids (poll_events cfg env r' i p n ++ l)
  = (repeat (Release.build_id r') (poll_count env p n) ++ polled_ids l)%list.
Proof.
  unfold poll_events, poll_count. rewrite <- app_assoc, polled_attempts.
  destruct (Nat.ltb _ _); cbn; [|reflexivity].
  change (Release.build_id r' :: polled_ids l)
    with (repeat (Release.build_id r') 1 ++ polled_ids l)%list.
  rewrite app_assoc, <- repeat_app, Nat.add_1_r. reflexivity.
Qed.

Lemma poll_events_head r' i p n :
  0 < n ->
  exists rest,
    poll_events cfg env r' i p n
    = GetBuild (project cfg) (Release.build_id r') :: rest.
Proof.
  intros Hn. unfold poll_events.
  destruct n as [|n]; [lia|]. cbn [pending_polls].
  destruct (terminal (builds env p)).
  - cbn. eexists. reflexivity.
  - cbn [attempts app]. eexists. reflexivity.
Qed.

Lemma sleeps_app : forall a b, sleeps (a ++ b) = (sleeps a ++ sleeps b)%list.
Proof.
  induction a as [|e a IH]; intros b; [reflexivity|].
  destruct e; cbn; rewrite IH; reflexivity.
Qed.

Lemma sleeps_attempts r' : forall k i p,
  sleeps (attempts cfg env r' i p k)
  = map (fun j => retryIntervalStep cfg * Z.of_nat (j + 1))%Z (seq i k).
Proof.
  induction k as [|k IH]; intros; cbn; [reflexivity|].
  rewrite IH. reflexivity.
Qed.

Lemma backoff_sorted : forall k i,
  (0 <= retryIntervalStep cfg)%Z ->
  StronglySorted Z.le
    (map (fun j => retryIntervalStep cfg * Z.of_nat (j + 1))%Z (seq i k)).
Proof.
  intros k i Hstep. revert i.
  induction k as [|k IH]; intros i; cbn; constructor; [apply IH|].
  apply Forall_forall. intros x Hx.
  apply in_map_iff in Hx. destruct Hx as [j [<- Hj]].
  apply in_seq in Hj. nia.
Qed.

End Polling.

Lemma ends_with_cons e tr s : ends_with tr s -> ends_with (e :: tr) s.
Proof. intros [b ->]. exists (e :: b). reflexivity. Qed.

Lemma ends_with_refl s : ends_with s s.
Proof. exists []. reflexivity. Qed.

Lemma completed_with s r x :
  status_eqb s Completed && result_is r x = true <-> s = Completed /\ r = Some x.
Proof.
  split.
  - intros H. apply andb_prop in H. destruct H as [Hs Hr].
    destruct s; try discriminate. destruct r as [y|]; [|discriminate].
    destruct y, x; try discriminate; auto.
  - intros [-> ->]. destruct x; reflexivity.
Qed.

(** C7. The polling loop, attempt by attempt: when the first [k] answers
    are not terminal (and answer [k], if the budget reaches it, is), the
    loop's events are, for each [i < k], a fetch, a log line and a wait of
    exactly [retryIntervalStep * (i + 1)], followed - when a terminal
    answer was found - by the fetch and log line of attempt [k] with no
    wait after it, and that build is returned at once; the waits are
    [retryIntervalStep * 1, ..., retryIntervalStep * k], a non-decreasing
    sequence for a non-negative step. *)
Theorem polling_linear_backoff (cfg : Config) (env : Env) (w : World) (k : nat) :
  (0 <= retryIntervalStep cfg)%Z ->
  k <= retries cfg ->
  (forall j, j < k -> terminal (builds env (polls w + j)) = false) ->
  (k < retries cfg -> terminal (builds env (polls w + k)) = true) ->
  let found := Nat.ltb k (retries cfg) in
  let waits := map (fun i => retryIntervalStep cfg * Z.of_nat (i + 1))%Z (seq 0 k) in
  fst (checkBuildPipelines cfg env w)
    = Returned (if found then Some (builds env (polls w + k)) else None)
  /\ trace (snd (checkBuildPipelines cfg env w))
     = (trace w
          ++ [LogInfo (CheckPipelines (Release.id (release w)) (Release.build_id (release w)))]
          ++ attempts cfg env (release w) 0 (polls w) k
          ++ (if found then last_attempt cfg env (release w) k (polls w + k) else []))%list
  /\ sleeps (attempts cfg env (release w) 0 (polls w) k) = waits
  /\ sleeps (trace (snd (checkBuildPipelines cfg env w))) = (sleeps (trace w) ++ waits)%list
  /\ StronglySorted Z.le waits.
Proof.
  intros Hstep Hk Hpre Hterm found waits.
  assert (Hrun : checkBuildPipelines cfg env w =
    (Returned (if found then Some (builds env (polls w + k)) else None),
     mkWorld (release w)
       (trace w
          ++ [LogInfo (CheckPipelines (Release.id (release w)) (Release.build_id (release w)))]
          ++ attempts cfg env (release w) 0 (polls w) k
          ++ (if found then last_attempt cfg env (release w) k (polls w + k) else []))
       (polls w + (if found then S k else k)))).
  { unfold checkBuildPipelines, bind, this_release, emit.
    rewrite check_loop_run. cbn [release trace polls].
    unfold poll_answer, poll_events, poll_count.
    rewrite (pending_polls_first env k (retries cfg) (polls w) Hk Hpre Hterm).
    rewrite <- app_assoc. reflexivity. }
  rewrite Hrun. cbn [fst snd trace].
  split; [reflexivity|]. split; [reflexivity|].
  split; [apply sleeps_attempts|].
  split; [|apply backoff_sorted; exact Hstep].
  rewrite !sleeps_app, sleeps_attempts. cbn [sleeps app].
  destruct found; cbn; rewrite app_nil_r; reflexivity.
Qed.


Lemma polling_linear_backoff_witness :
  (0 <= retryIntervalStep Scenario.cfg)%Z
  /\ fst (checkBuildPipelines Scenario.cfg Scenario.conflicting
            (new_builder Scenario.r_timed_out))
     = Returned (Some Scenario.completed_failed)
  /\ sleeps (trace (snd (checkBuildPipelines Scenario.cfg Scenario.conflicting
                           (new_builder Scenario.r_timed_out))))
     = [1000%Z].
Proof.
  assert (Hstep : (0 <= retryIntervalStep Scenario.cfg)%Z) by (cbn; lia).
  assert (Hk : 1 <= retries Scenario.cfg) by (cbn; lia).
  assert (Hpre : forall j, j < 1 ->
            terminal (builds Scenario.conflicting
                        (polls (new_builder Scenario.r_timed_out) + j)) = false).
  { intros [|j] Hj; [reflexivity | lia]. }
  assert (Hterm : 1 < retries Scenario.cfg ->
            terminal (builds Scenario.conflicting
                        (polls (new_builder Scenario.r_timed_out) + 1)) = true)
    by reflexivity.
  destruct (polling_linear_backoff Scenario.cfg Scenario.conflicting
              (new_builder Scenario.r_timed_out) 1 Hstep Hk Hpre Hterm)
    as (Hanswer & _ & _ & Hwaits & _).
  split; [exact Hstep|]. split; [exact Hanswer | exact Hwaits].
Defined.

(** ** The driver *)

(** Unfold the straight-line part of the job and compute what is known. *)
Ltac run_job :=
  lazy beta iota zeta delta
    [run build checkBuildPipelines CreateBuildPipelines getPublishLog
     queueBuild getBuildApi update sleep emit this_release bind ret throw
     new_builder release trace polls fst snd
     Release.id Release.state Release.reason Release.build_id Release.package_id
     Release.version Release.tag Release.publish_log apply_fields or_keep
     set_state set_build_id set_reason set_publish_log
     Build.id Build.status Build.result];
  cbn [state_eqb reason_eqb status_eqb result_is result_eqb falsy andb orb negb app].

(** Run the loop inside a job that has been unfolded. *)
Ltac run_poll := rewrite check_loop_run; cbn [release trace polls].

(** A scripted pipeline that ends polling at a given attempt. *)
Ltac scripted_poll :=
  unfold polling_ends; split; [cbn; lia|];
  split; [intros j Hj; repeat (destruct j as [|j]; [reflexivity|]); cbn in Hj; lia|];
  split; reflexivity.

Ltac flat_trace := rewrite <- ?app_assoc; cbn [app].

Lemma ends_with_app_r p l s : ends_with l s -> ends_with (p ++ l) s.
Proof. intros [b ->]. exists (p ++ b)%list. apply app_assoc. Qed.

Ltac trace_suffix :=
  repeat first [apply ends_with_refl | apply ends_with_cons | apply ends_with_app_r].

Ltac external_suffix :=
  cbn [filter is_external]; rewrite ?filter_app; cbn [filter is_external];
  trace_suffix.

Ltac last_row :=
  cbn [persisted]; rewrite ?persisted_poll_events; cbn; reflexivity.

(** C3. When every one of the [retries] polling attempts sees a status
    that is neither Completed nor Cancelling, the polling loop returns no
    result, and the driver (on a release that is not already succeeded)
    then writes state failed with reason timeout and throws the timeout
    error: that update is the last event before the throw, and the row it
    leaves is the builder's release, failed with reason timeout. *)
Theorem timeout_is_persisted_then_raised (cfg : Config) (env : Env) (r : Release.t) :
  Release.state r <> succeeded ->
  (forall j, j < retries cfg -> terminal (builds env j) = false) ->
  (forall w, polls w = 0 -> fst (checkBuildPipelines cfg env w) = Returned None)
  /\ (let w := snd (run cfg env r) in
      fst (run cfg env r)
        = Thrown (PipelinesTimeout (Release.id r) (Release.build_id (release w)))
      /\ ends_with (trace w)
           [UpdateRelease (Release.id r) (mkFields (Some failed) None (Some timeout) None)]
      /\ Release.state (release w) = failed
      /\ Release.reason (release w) = timeout
      /\ last (persisted r (trace w)) r = release w).
Proof.
  intros Hs Hall. split.
  - intros [wr wt wp] Hw. cbn [polls] in Hw. subst wp. run_job. run_poll.
    rewrite poll_answer_exhausted by exact Hall. reflexivity.
  - destruct r as [id pk ver tg st bid rs pl]. cbn [Release.state] in Hs.
    destruct st, bid; try congruence; run_job;
      try (destruct (reason_eqb rs timeout); run_job);
      run_poll; rewrite (poll_answer_exhausted _ _ Hall); run_job;
      (split; [reflexivity|]); (split; [trace_suffix|]);
      (split; [reflexivity|]); (split; [reflexivity|]); last_row.
Qed.

Lemma timeout_is_persisted_then_raised_witness :
  Release.state Scenario.r_pending <> succeeded
  /\ fst (run Scenario.cfg Scenario.stalled Scenario.r_pending)
     = Thrown (PipelinesTimeout 7 "55")
  /\ Release.reason (release (snd (run Scenario.cfg Scenario.stalled Scenario.r_pending)))
     = timeout.
Proof.
  assert (Hs : Release.state Scenario.r_pending <> succeeded) by discriminate.
  assert (Hall : forall j, j < retries Scenario.cfg ->
                   terminal (builds Scenario.stalled j) = false) by reflexivity.
  destruct (timeout_is_persisted_then_raised Scenario.cfg Scenario.stalled
              Scenario.r_pending Hs Hall) as [_ (Hthrown & _ & _ & Hwhy & _)].
  split; [exact Hs|]. split; [exact Hthrown | exact Hwhy].
Defined.

(** C1, amended. When polling ends with a build that is Completed and
    Failed, the driver writes the failure in two partial updates: first
    the state alone, then - after fetching the publish log - the classified
    reason together with the log.  These are its last three external
    interactions, made before it returns or throws, and the row they leave
    is failed and carries the classified reason and the fetched log. *)
Theorem failure_written_in_two_updates
    (cfg : Config) (env : Env) (r : Release.t) (k : nat) (b : Build.t) :
  Release.state r <> succeeded ->
  polling_ends cfg env k b ->
  Build.status b = Completed ->
  Build.result b = Some Failed ->
  let w := snd (run cfg env r) in
  let text := publish_text env in
  let why := getReasonFromPublishLog text in
  exists row,
    Release.state row = failed
    /\ Release.build_id row = Release.build_id (release w)
    /\ ends_with (filter is_external (trace w))
         [ UpdateRelease (Release.id r) (mkFields (Some failed) None None None);
           FetchText (buildPublishResultUrl env row);
           UpdateRelease (Release.id r) (mkFields None None (Some why) (Some text)) ]
    /\ Release.state (release w) = failed
    /\ Release.reason (release w) = why
    /\ Release.publish_log (release w) = Some text
    /\ last (persisted r (trace w)) r = release w.
Proof.
  intros Hs Hend Hst Hres w text why. subst w text why.
  pose proof (poll_answer_found cfg env k b Hend) as Hans.
  destruct r as [id pk ver tg st bid rs pl]. cbn [Release.state] in Hs.
  destruct b as [bi bs br]. cbn [Build.status Build.result] in Hst, Hres. subst bs br.
  destruct st, bid; try congruence; run_job;
    try (destruct (reason_eqb rs timeout); run_job);
    run_poll; rewrite Hans; run_job;
    cbn [Build.status Build.result status_eqb result_is result_eqb andb]; run_job;
    match goal with |- context [if ?c then _ else _] => destruct c end; run_job;
    (eexists (Release.mk _ _ _ _ _ _ _ _); cbn [Release.state Release.build_id];
     split; [reflexivity|]; split; [reflexivity|]; flat_trace; split; [external_suffix|];
     split; [reflexivity|]; split; [reflexivity|]; split; [reflexivity|]; last_row).
Qed.

(** C1 as stated fails: for a pending release whose build completes as
    failed on the second poll, the record store holds a row in state
    failed that has neither the classified reason nor the log yet. *)
Lemma failure_not_written_together :
  polling_ends Scenario.cfg Scenario.conflicting 1 Scenario.completed_failed
  /\ In (Scenario.rel failed "55" RNone)
       (persisted Scenario.r_pending
          (trace (snd (run Scenario.cfg Scenario.conflicting Scenario.r_pending))))
  /\ ~ failure_written_together Scenario.conflicting Scenario.r_pending
         (trace (snd (run Scenario.cfg Scenario.conflicting Scenario.r_pending))).
Proof.
  assert (Hrow : In (Scenario.rel failed "55" RNone)
                   (persisted Scenario.r_pending
                      (trace (snd (run Scenario.cfg Scenario.conflicting
                                     Scenario.r_pending))))).
  { vm_compute. right. right. left. reflexivity. }
  split; [scripted_poll|]. split; [exact Hrow|].
  unfold failure_written_together. intros Hall.
  rewrite Forall_forall in Hall.
  destruct (Hall _ Hrow eq_refl) as [Hwhy _].
  vm_compute in Hwhy. discriminate Hwhy.
Qed.

Lemma failure_written_in_two_updates_witness :
  polling_ends Scenario.cfg Scenario.conflicting 1 Scenario.completed_failed
  /\ Release.reason (release (snd (run Scenario.cfg Scenario.conflicting Scenario.r_pending)))
     = publishConflict
  /\ Release.publish_log
       (release (snd (run Scenario.cfg Scenario.conflicting Scenario.r_pending)))
     = Some Scenario.conflict_log.
Proof.
  assert (Hs : Release.state Scenario.r_pending <> succeeded) by discriminate.
  assert (Hend : polling_ends Scenario.cfg Scenario.conflicting 1 Scenario.completed_failed)
    by scripted_poll.
  destruct (failure_written_in_two_updates Scenario.cfg Scenario.conflicting
              Scenario.r_pending 1 Scenario.completed_failed Hs Hend eq_refl eq_refl)
    as (row & _ & _ & _ & _ & Hwhy & Hlog & _).
  split; [exact Hend|]. split; [exact Hwhy | exact Hlog].
Defined.

(** C2. When polling ends with a terminal build that did not succeed: if
    the build is Completed and Failed, the driver throws exactly when the
    reason classified from the publish log is badGateway or serverError;
    for any other reason (the empty one included) it logs the failure and
    returns; in the throwing case the last event before the throw is the
    update that writes the reason and the log, and the row is failed with
    that reason.  A terminal build that is not Completed and Failed
    (cancellation) is written as failed, logged with the empty reason, and
    nothing is thrown. *)
Theorem retry_iff_transient
    (cfg : Config) (env : Env) (r : Release.t) (k : nat) (b : Build.t) :
  Release.state r <> succeeded ->
  polling_ends cfg env k b ->
  status_eqb (Build.status b) Completed && result_is (Build.result b) Succeeded = false ->
  let w := snd (run cfg env r) in
  let text := publish_text env in
  let bid := Release.build_id (release w) in
  (Build.status b = Completed -> Build.result b = Some Failed ->
     let why := getReasonFromPublishLog text in
     ((exists e, fst (run cfg env r) = Thrown e) <-> why = badGateway \/ why = serverError)
     /\ (why <> badGateway -> why <> serverError ->
         fst (run cfg env r) = Returned tt
         /\ ends_with (trace w)
              [LogError (PipelinesFailed (Release.id r) bid Completed (Some Failed) why)])
     /\ (why = badGateway \/ why = serverError ->
         fst (run cfg env r)
           = Thrown (PipelinesFailedError (Release.id r) bid Completed (Some Failed))
         /\ ends_with (trace w)
              [UpdateRelease (Release.id r) (mkFields None None (Some why) (Some text))]
         /\ Release.state (release w) = failed
         /\ Release.reason (release w) = why
         /\ last (persisted r (trace w)) r = release w))
  /\ (~ (Build.status b = Completed /\ Build.result b = Some Failed) ->
      fst (run cfg env r) = Returned tt
      /\ ends_with (trace w)
           [ UpdateRelease (Release.id r) (mkFields (Some failed) None None None);
             LogError (PipelinesFailed (Release.id r) bid (Build.status b)
                         (Build.result b) RNone) ]).
Proof.
  intros Hs Hend Hfail w text bid. subst w text bid.
  pose proof (poll_answer_found cfg env k b Hend) as Hans.
  destruct r as [id pk ver tg st rbid rs pl]. cbn [Release.state] in Hs.
  destruct b as [bi bs br]. cbn [Build.status Build.result] in Hfail |- *.
  split.
  - intros Hst Hres. subst bs br.
    destruct st, rbid; try congruence; run_job;
      try (destruct (reason_eqb rs timeout); run_job);
      run_poll; rewrite Hans; run_job;
      cbn [Build.status Build.result status_eqb result_is result_eqb andb]; run_job;
      destruct (getReasonFromPublishLog (publish_text env)) eqn:Hwhy; run_job; flat_trace;
      (split;
       [ split;
         [ intros [e He]; first [discriminate He | auto]
         | intros [Hw|Hw]; first [discriminate Hw | eexists; reflexivity] ]
       | split;
         [ intros Hn1 Hn2;
           first [congruence | split; [reflexivity|trace_suffix]]
         | intros [Hw|Hw];
           first [ discriminate Hw
                 | split; [reflexivity|]; split; [trace_suffix|];
                   split; [reflexivity|]; split; [reflexivity|]; last_row ] ] ]).
  - intros Hnot.
    assert (Hcf : status_eqb bs Completed && result_is br Failed = false).
    { destruct (status_eqb bs Completed && result_is br Failed) eqn:E;
        [|reflexivity].
      apply completed_with in E. contradiction. }
    destruct st, rbid; try congruence; run_job;
      try (destruct (reason_eqb rs timeout); run_job);
      run_poll; rewrite Hans; run_job; rewrite Hfail; run_job; rewrite Hcf; run_job;
      flat_trace; (split; [reflexivity|trace_suffix]).
Qed.

Lemma retry_iff_transient_witness :
  polling_ends Scenario.cfg Scenario.gateway_down 1 Scenario.completed_failed
  /\ fst (run Scenario.cfg Scenario.gateway_down Scenario.r_pending)
     = Thrown (PipelinesFailedError 7 "55" Completed (Some Failed))
  /\ Release.reason
       (release (snd (run Scenario.cfg Scenario.gateway_down Scenario.r_pending)))
     = badGateway.
Proof.
  assert (Hs : Release.state Scenario.r_pending <> succeeded) by discriminate.
  assert (Hend : polling_ends Scenario.cfg Scenario.gateway_down 1 Scenario.completed_failed)
    by scripted_poll.
  destruct (retry_iff_transient Scenario.cfg Scenario.gateway_down Scenario.r_pending 1
              Scenario.completed_failed Hs Hend eq_refl) as [Hfailed _].
  destruct (Hfailed eq_refl eq_refl) as (_ & _ & Hretry).
  destruct (Hretry (or_introl eq_refl)) as (Hthrown & _ & _ & Hwhy & _).
  split; [exact Hend|]. split; [exact Hthrown | exact Hwhy].
Defined.

(** Split on every way the job can end once polling is over. *)
Ltac each_outcome :=
  repeat (match goal with
          | |- context [if ?c then _ else _] => destruct c
          end; run_job).

Ltac first_row :=
  cbn [persisted hd_error]; eexists; split; [reflexivity|]; split; reflexivity.

(** C4. A release in state failed with reason timeout and a non-empty
    build id is moved to building by an update that names the state only;
    every row written during the run keeps the build id, no build is
    queued, every poll asks for that build id, and with a retry budget of
    at least one the first event after the loop's log line is the fetch of
    that build. *)
Theorem resume_polls_same_build (cfg : Config) (env : Env) (r : Release.t) :
  Release.state r = failed ->
  Release.reason r = timeout ->
  Release.build_id r <> "" ->
  let w := snd (run cfg env r) in
  let bid := Release.build_id r in
  starts_with (trace w)
    [ UpdateRelease (Release.id r) (mkFields (Some building) None None None);
      GetBuildApi;
      LogInfo (CheckPipelines (Release.id r) bid) ]
  /\ (exists row, hd_error (persisted r (trace w)) = Some row
        /\ Release.state row = building /\ Release.build_id row = bid)
  /\ Forall (fun row => Release.build_id row = bid) (persisted r (trace w))
  /\ Release.build_id (release w) = bid
  /\ filter is_queue (trace w) = []
  /\ polled_ids (trace w) = repeat bid (polls w)
  /\ (0 < retries cfg -> nth_error (trace w) 3 = Some (GetBuild (project cfg) bid)).
Proof.
  intros Hst Hwhy Hbid w bid. subst w bid.
  destruct r as [id pk ver tg st rbid rs pl].
  cbn [Release.state Release.reason Release.build_id Release.id] in *. subst st rs.
  destruct rbid as [|c rbid]; [congruence|].
  run_job. run_poll.
  destruct (poll_answer env 0 (retries cfg)) as [[bi bs br]|]; run_job; each_outcome;
    flat_trace;
    (split; [eexists; reflexivity|]);
    (split; [first_row|]);
    (split; [cbn [persisted]; rewrite persisted_poll_events; cbn [persisted];
             repeat constructor|]);
    (split; [reflexivity|]);
    (split; [cbn [filter is_queue]; rewrite queue_poll_events; reflexivity|]);
    (split; [cbn [polled_ids]; rewrite polled_poll_events; cbn [polled_ids];
             rewrite app_nil_r; reflexivity|]);
    (intros Hn;
     destruct (poll_events_head cfg env
                 (Release.mk id pk ver tg building (String c rbid) timeout pl)
                 0 0 (retries cfg) Hn) as [rest Hrest];
     rewrite Hrest; reflexivity).
Qed.

Lemma resume_polls_same_build_witness :
  Release.build_id Scenario.r_timed_out <> ""
  /\ filter is_queue (trace (snd (run Scenario.cfg Scenario.resumed Scenario.r_timed_out)))
     = []
  /\ polled_ids (trace (snd (run Scenario.cfg Scenario.resumed Scenario.r_timed_out)))
     = ["41"; "41"].
Proof.
  assert (Hbid : Release.build_id Scenario.r_timed_out <> "") by discriminate.
  destruct (resume_polls_same_build Scenario.cfg Scenario.resumed Scenario.r_timed_out
              eq_refl eq_refl Hbid) as (_ & _ & _ & _ & Hqueue & Hpolled & _).
  split; [exact Hbid|]. split; [exact Hqueue | exact Hpolled].
Defined.

Ltac fresh_build_outcomes :=
  run_job; run_poll;
  destruct (poll_answer _ 0 _) as [[bi bs br]|]; run_job; each_outcome;
  flat_trace;
  (split; [eexists; reflexivity|]);
  (split; [first_row|]);
  (split; [cbn [filter is_queue]; rewrite queue_poll_events; reflexivity|]);
  (split; [cbn [polled_ids]; rewrite polled_poll_events; cbn [polled_ids];
           rewrite app_nil_r; reflexivity|]);
  reflexivity.

(** C5. A release in state pending, or in state failed with a reason other
    than timeout, is moved to building with an emptied build id; then the
    package and project are read, exactly one build is queued, the returned
    id is written to the row, and the job waits the configured [duration]
    before the polling loop starts; every poll asks for the new id. *)
Theorem fresh_start_queues_one_build (cfg : Config) (env : Env) (r : Release.t) :
  Release.state r = pending
  \/ (Release.state r = failed /\ Release.reason r <> timeout) ->
  let w := snd (run cfg env r) in
  let new_id := JsString.of_int (Build.id (queued env)) in
  starts_with (trace w)
    (UpdateRelease (Release.id r) (mkFields (Some building) (Some "") None None)
       :: queue_events cfg env r new_id)
  /\ (exists row, hd_error (persisted r (trace w)) = Some row
        /\ Release.state row = building /\ Release.build_id row = "")
  /\ length (filter is_queue (trace w)) = 1
  /\ polled_ids (trace w) = repeat new_id (polls w)
  /\ Release.build_id (release w) = new_id.
Proof.
  intros Hcase w new_id. subst w new_id.
  destruct r as [id pk ver tg st rbid rs pl].
  cbn [Release.state Release.reason Release.build_id Release.id] in *.
  unfold queue_events, build_request.
  destruct Hcase as [->|[-> Hwhy]].
  - fresh_build_outcomes.
  - destruct rs; try congruence; fresh_build_outcomes.
Qed.

Lemma fresh_start_queues_one_build_witness :
  (Release.state Scenario.r_conflict = pending
   \/ (Release.state Scenario.r_conflict = failed
       /\ Release.reason Scenario.r_conflict <> timeout))
  /\ length (filter is_queue
               (trace (snd (run Scenario.cfg Scenario.requeued Scenario.r_conflict)))) = 1
  /\ polled_ids (trace (snd (run Scenario.cfg Scenario.requeued Scenario.r_conflict)))
     = ["55"; "55"].
Proof.
  assert (Hcase : Release.state Scenario.r_conflict = pending
                  \/ (Release.state Scenario.r_conflict = failed
                      /\ Release.reason Scenario.r_conflict <> timeout)).
  { right. split; [reflexivity | discriminate]. }
  destruct (fresh_start_queues_one_build Scenario.cfg Scenario.requeued
              Scenario.r_conflict Hcase) as (_ & _ & Hqueue & Hpolled & _).
  split; [exact Hcase|]. split; [exact Hqueue | exact Hpolled].
Defined.

(** C10. A release in state failed with reason timeout and an empty build
    id is moved to building by an update that leaves the (empty) build id
    alone; as no build id is present, exactly one fresh build is queued,
    its id is written to the row, and polling asks for that new id. *)
Theorem timeout_without_build_starts_fresh (cfg : Config) (env : Env) (r : Release.t) :
  Release.state r = failed ->
  Release.reason r = timeout ->
  Release.build_id r = "" ->
  let w := snd (run cfg env r) in
  let new_id := JsString.of_int (Build.id (queued env)) in
  starts_with (trace w)
    (UpdateRelease (Release.id r) (mkFields (Some building) None None None)
       :: queue_events cfg env r new_id)
  /\ (exists row, hd_error (persisted r (trace w)) = Some row
        /\ Release.state row = building /\ Release.build_id row = Release.build_id r)
  /\ length (filter is_queue (trace w)) = 1
  /\ polled_ids (trace w) = repeat new_id (polls w)
  /\ Release.build_id (release w) = new_id.
Proof.
  intros Hst Hwhy Hbid w new_id. subst w new_id.
  destruct r as [id pk ver tg st rbid rs pl].
  cbn [Release.state Release.reason Release.build_id Release.id] in *. subst st rs rbid.
  unfold queue_events, build_request.
  fresh_build_outcomes.
Qed.

Lemma timeout_without_build_starts_fresh_witness :
  Release.build_id Scenario.r_timed_out_unbuilt = ""
  /\ length (filter is_queue
               (trace (snd (run Scenario.cfg Scenario.restarted
                              Scenario.r_timed_out_unbuilt)))) = 1
  /\ Release.build_id
       (release (snd (run Scenario.cfg Scenario.restarted Scenario.r_timed_out_unbuilt)))
     = "55".
Proof.
  destruct (timeout_without_build_starts_fresh Scenario.cfg Scenario.restarted
              Scenario.r_timed_out_unbuilt eq_refl eq_refl eq_refl)
    as (_ & _ & Hqueue & _ & Hbid).
  split; [reflexivity|]. split; [exact Hqueue | exact Hbid].
Defined.

(** C6, amended. On a release whose state is succeeded the job reads the
    release row once and does nothing else: [buildRelease] issues the one
    [fetchOne] and, apart from a log line, no other event - no update, no
    pipeline call, no log fetch - and the row is left as it was; the
    builder's [build] itself issues no external call at all. *)
Theorem succeeded_release_is_only_read
    (cfg : Config) (env : Env) (id : Z) (r : Release.t) :
  releases env id = Some r ->
  Release.state r = succeeded ->
  buildRelease cfg env id
    = (Returned tt,
       [FetchRelease id; LogInfo (SkipForState (Release.id r) succeeded)],
       Some r)
  /\ filter is_external (snd (fst (buildRelease cfg env id))) = [FetchRelease id]
  /\ persisted r (snd (fst (buildRelease cfg env id))) = []
  /\ run cfg env r
     = (Returned tt, mkWorld r [LogInfo (SkipForState (Release.id r) succeeded)] 0)
  /\ filter is_external (trace (snd (run cfg env r))) = []
  /\ persisted r (trace (snd (run cfg env r))) = [].
Proof.
  intros Hrow Hst.
  assert (Hbuild : forall evs,
    build cfg env (mkWorld r evs 0)
    = (Returned tt,
       mkWorld r (evs ++ [LogInfo (SkipForState (Release.id r) succeeded)]) 0)).
  { intros evs. destruct r as [rid pk ver tg st rbid rs pl].
    cbn [Release.state] in Hst. subst st. reflexivity. }
  assert (Hjob : buildRelease cfg env id
    = (Returned tt,
       [FetchRelease id; LogInfo (SkipForState (Release.id r) succeeded)],
       Some r)).
  { unfold buildRelease, fetchOne. rewrite Hrow, Hbuild. reflexivity. }
  unfold run, new_builder. rewrite Hjob, Hbuild.
  repeat split.
Qed.

Lemma succeeded_release_is_only_read_witness :
  releases Scenario.finished 7 = Some Scenario.r_succeeded
  /\ filter is_external (snd (fst (buildRelease Scenario.cfg Scenario.finished 7)))
     = [FetchRelease 7]
  /\ filter is_external (trace (snd (run Scenario.cfg Scenario.finished Scenario.r_succeeded)))
     = [].
Proof.
  destruct (succeeded_release_is_only_read Scenario.cfg Scenario.finished 7
              Scenario.r_succeeded eq_refl eq_refl) as (_ & Hread & _ & _ & Hnone & _).
  split; [reflexivity|]. split; [exact Hread | exact Hnone].
Defined.

(** C6 as stated fails for the job entry point: on a succeeded release it
    still issues one record-store operation, the read of the row. *)
Lemma succeeded_release_is_read :
  releases Scenario.finished 7 = Some Scenario.r_succeeded
  /\ Release.state Scenario.r_succeeded = succeeded
  /\ In (FetchRelease 7) (snd (fst (buildRelease Scenario.cfg Scenario.finished 7)))
  /\ ~ no_external_calls (snd (fst (buildRelease Scenario.cfg Scenario.finished 7))).
Proof.
  split; [reflexivity|]. split; [reflexivity|].
  split; [left; reflexivity|].
  unfold no_external_calls. vm_compute. discriminate.
Qed.

(** * Further properties of the job *)

(** ** More on strings, build names and the classifier *)

Lemma prefix_iff p : forall s, String.prefix p s = true <-> exists b, s = p ++ b.
Proof.
  induction p as [|c p IH]; intros s.
  - split; [intros _; exists s; reflexivity | intros _; destruct s; reflexivity].
  - destruct s as [|d s]; cbn [String.prefix].
    + split; [discriminate | intros [b Hb]; discriminate Hb].
    + destruct (ascii_dec c d) as [<-|Hne].
      * rewrite IH. split; intros [b Hb]; exists b.
        -- cbn. rewrite Hb. reflexivity.
        -- cbn in Hb. congruence.
      * split; [discriminate | intros [b Hb]; cbn in Hb; congruence].
Qed.

Lemma includes_iff p : forall s,
  JsString.includes p s = true <-> exists a b, s = a ++ p ++ b.
Proof.
  induction s as [|d s IH]; cbn [JsString.includes]; rewrite orb_true_iff, prefix_iff.
  - split.
    + intros [[b Hb]|H]; [exists "", b; exact Hb | discriminate H].
    + intros [a [b Hab]]. left. exists b.
      destruct a; [exact Hab | discriminate Hab].
  - rewrite IH. split.
    + intros [[b Hb]|[a [b Hab]]].
      * exists "", b. exact Hb.
      * exists (String d a), b. cbn. rewrite Hab. reflexivity.
    + intros [a [b Hab]]. destruct a as [|e a].
      * left. exists b. exact Hab.
      * right. exists a, b. cbn in Hab. congruence.
Qed.

Lemma uint_chars_legal : forall d c,
  In c (chars (NilEmpty.string_of_uint d)) -> is_illegal c = false.
Proof.
  unfold chars.
  induction d; cbn; intros c H; try contradiction;
    (destruct H as [<-|H]; [reflexivity | apply IHd; exact H]).
Qed.

Lemma nilzero_uint_chars_legal d c :
  In c (chars (NilZero.string_of_uint d)) -> is_illegal c = false.
Proof.
  destruct d; try exact (uint_chars_legal _ c).
  unfold chars. cbn. intros [<-|[]]. reflexivity.
Qed.

Lemma of_int_chars_legal n c :
  In c (chars (JsString.of_int n)) -> is_illegal c = false.
Proof.
  unfold JsString.of_int, NilZero.string_of_int.
  destruct (Z.to_int n) as [d|d].
  - apply (nilzero_uint_chars_legal d).
  - unfold chars. cbn [list_ascii_of_string]. intros [<-|H]; [reflexivity|].
    apply (nilzero_uint_chars_legal d). exact H.
Qed.

Lemma of_int_not_empty n : JsString.of_int n <> "".
Proof.
  unfold JsString.of_int, NilZero.string_of_int, NilZero.string_of_uint.
  destruct (Z.to_int n) as [d|d]; [|discriminate].
  destruct d; discriminate.
Qed.

Lemma chars_app a b : chars (a ++ b) = (chars a ++ chars b)%list.
Proof. unfold chars. induction a as [|c a IH]; cbn; [reflexivity|]. rewrite IH. reflexivity. Qed.

Lemma replace_class_app cls r a b :
  JsString.replace_class cls r (a ++ b)
  = JsString.replace_class cls r a ++ JsString.replace_class cls r b.
Proof. induction a as [|c a IH]; cbn; [reflexivity|]. rewrite IH. reflexivity. Qed.

Lemma replace_class_length cls r s :
  String.length (JsString.replace_class cls r s) = String.length s.
Proof. induction s as [|c s IH]; cbn; [reflexivity|]. rewrite IH. reflexivity. Qed.

Lemma replace_class_legal cls r s :
  (forall c, In c (chars s) -> cls c = false) ->
  JsString.replace_class cls r s = s.
Proof.
  unfold chars. induction s as [|c s IH]; cbn; intros H; [reflexivity|].
  rewrite (H c) by (left; reflexivity). rewrite IH; [reflexivity|].
  intros c' Hc'. apply H. right. exact Hc'.
Qed.

Lemma string_length_app a b : String.length (a ++ b) = String.length a + String.length b.
Proof. induction a as [|c a IH]; cbn; [reflexivity|]. rewrite IH. reflexivity. Qed.

Lemma substr_length_min n : forall s,
  String.length (JsString.substr 0 n s) = Nat.min n (String.length s).
Proof.
  unfold JsString.substr.
  induction n as [|n IH]; intros [|c s]; cbn; try reflexivity.
  rewrite IH. reflexivity.
Qed.

Lemma substr_prefix p : forall n s,
  String.length p <= n -> JsString.substr 0 n (p ++ s) = p ++ JsString.substr 0 (n - String.length p) s.
Proof.
  unfold JsString.substr.
  induction p as [|c p IH]; intros n s H; cbn in *.
  - rewrite Nat.sub_0_r. reflexivity.
  - destruct n as [|n]; [lia|]. cbn. rewrite IH by lia. reflexivity.
Qed.

(** X1. The build name is exactly as long as the composed name
    [rel#<id>-<name>#<version>] (after the leading [@] is dropped), capped
    at 200: the replacement of characters never changes the length. *)
Theorem getBuildName_length_exact (id : Z) (name ver : string) :
  String.length (getBuildName id name ver)
  = Nat.min 200
      (4 + String.length (JsString.of_int id) + 1
       + String.length (strip_scope name) + 1 + String.length ver).
Proof.
  rewrite getBuildName_refines. unfold build_name_spec.
  rewrite substr_length_min, replace_class_length.
  cbn [String.append String.length]. rewrite !string_length_app. cbn [String.length].
  rewrite !string_length_app. cbn [String.length]. f_equal. lia.
Qed.

(** X2. Whatever the package name and version, the build name
    begins with [rel#<id>-], the id unaltered by the replacement, as long
    as the decimal id has at most 195 digits (so that the prefix fits). *)
Theorem getBuildName_starts_with_release (id : Z) (name ver : string) :
  String.length (JsString.of_int id) <= 195 ->
  exists rest,
    getBuildName id name ver = "rel#" ++ JsString.of_int id ++ "-" ++ rest.
Proof.
  intros Hlen. rewrite getBuildName_refines. unfold build_name_spec.
  change ("rel#" ++ JsString.of_int id ++ "-" ++ strip_scope name ++ "#" ++ ver)
    with ("rel#" ++ (JsString.of_int id ++ "-" ++ strip_scope name ++ "#" ++ ver)).
  rewrite replace_class_app. change (JsString.replace_class is_illegal "_" "rel#") with "rel#".
  rewrite substr_prefix by (cbn [String.length]; lia).
  rewrite replace_class_app, (replace_class_legal _ _ (JsString.of_int id))
    by apply of_int_chars_legal.
  rewrite substr_prefix by (cbn [String.length]; lia).
  change ("-" ++ strip_scope name ++ "#" ++ ver) with ("-" ++ (strip_scope name ++ "#" ++ ver)).
  rewrite replace_class_app. change (JsString.replace_class is_illegal "_" "-") with "-".
  rewrite substr_prefix by (cbn [String.length]; lia).
  eexists. reflexivity.
Qed.

Lemma getBuildName_starts_with_release_witness :
  String.length (JsString.of_int 42) <= 195
  /\ exists rest,
       getBuildName 42 "@scope/pkg" "1.2.3" = "rel#" ++ JsString.of_int 42 ++ "-" ++ rest.
Proof.
  assert (Hlen : String.length (JsString.of_int 42) <= 195) by (vm_compute; lia).
  split; [exact Hlen|].
  apply (getBuildName_starts_with_release 42 "@scope/pkg" "1.2.3" Hlen).
Defined.

Lemma strip_scope_legal name :
  (forall c, In c (chars name) -> is_illegal c = false) -> strip_scope name = name.
Proof.
  intros H. destruct name as [|c name]; [reflexivity|].
  apply StringFacts.strip_scope_other. intros ->.
  specialize (H "@"%char (or_introl eq_refl)). discriminate H.
Qed.

(** X3. A package name and version without any of the replaced
    characters, short enough to fit in 200 characters, come through
    untouched: the build name is [rel#<id>-<name>#<version>] verbatim. *)
Theorem getBuildName_clean_input (id : Z) (name ver : string) :
  (forall c, In c (chars name) -> ~ In c illegal_chars) ->
  (forall c, In c (chars ver) -> ~ In c illegal_chars) ->
  String.length ("rel#" ++ JsString.of_int id ++ "-" ++ name ++ "#" ++ ver) <= 200 ->
  getBuildName id name ver = "rel#" ++ JsString.of_int id ++ "-" ++ name ++ "#" ++ ver.
Proof.
  intros Hname Hver Hlen.
  assert (Hn : forall c, In c (chars name) -> is_illegal c = false).
  { intros c Hc. destruct (is_illegal c) eqn:E; [|reflexivity].
    apply StringFacts.is_illegal_spec in E. destruct (Hname c Hc E). }
  assert (Hv : forall c, In c (chars ver) -> is_illegal c = false).
  { intros c Hc. destruct (is_illegal c) eqn:E; [|reflexivity].
    apply StringFacts.is_illegal_spec in E. destruct (Hver c Hc E). }
  rewrite getBuildName_refines. unfold build_name_spec.
  rewrite (strip_scope_legal name Hn).
  rewrite replace_class_legal.
  - unfold JsString.substr. apply StringFacts.substring_all. exact Hlen.
  - intros c Hc. rewrite !chars_app in Hc.
    repeat (apply in_app_or in Hc; destruct Hc as [Hc|Hc]);
      try (apply (of_int_chars_legal id); exact Hc);
      try (apply Hn; exact Hc); try (apply Hv; exact Hc);
      unfold chars in Hc; cbn in Hc;
      repeat (destruct Hc as [<-|Hc]; [reflexivity|]); contradiction.
Qed.

Lemma getBuildName_clean_input_witness :
  getBuildName 42 "pkg" "1.2" = "rel#" ++ JsString.of_int 42 ++ "-" ++ "pkg" ++ "#" ++ "1.2".
Proof.
  apply (getBuildName_clean_input 42 "pkg" "1.2").
  - intros c Hc Hill. unfold chars in Hc. cbn in Hc, Hill.
    repeat (destruct Hc as [<-|Hc];
            [repeat (destruct Hill as [Hill|Hill]; [discriminate Hill|]); contradiction|]).
    contradiction.
  - intros c Hc Hill. unfold chars in Hc. cbn in Hc, Hill.
    repeat (destruct Hc as [<-|Hc];
            [repeat (destruct Hill as [Hill|Hill]; [discriminate Hill|]); contradiction|]).
    contradiction.
  - vm_compute. lia.
Defined.

(** X4. Only one leading [@] is dropped, and a scoped name gets
    the build name of the same name without its [@]: the build name does
    not tell [@name] and [name] apart. *)
Theorem getBuildName_scope_collision (id : Z) (name ver : string) :
  JsString.startsWith "@" name = false ->
  getBuildName id (String "@" name) ver = getBuildName id name ver.
Proof.
  intros Hn. rewrite !getBuildName_refines. unfold build_name_spec.
  cbn [strip_scope].
  destruct name as [|c name]; [reflexivity|].
  rewrite StringFacts.strip_scope_other; [reflexivity|].
  intros ->. unfold JsString.startsWith in Hn. cbn in Hn.
  rewrite StringFacts.prefix_empty in Hn. discriminate Hn.
Qed.

Lemma getBuildName_scope_collision_witness :
  JsString.startsWith "@" "scope/pkg" = false
  /\ getBuildName 42 "@scope/pkg" "1.2.3" = getBuildName 42 "scope/pkg" "1.2.3".
Proof.
  split; [reflexivity|].
  apply (getBuildName_scope_collision 42 "scope/pkg" "1.2.3"). reflexivity.
Defined.

(** X5. A log that holds [EPUBLISHCONFLICT] anywhere is
    classified publishConflict, whatever text surrounds the marker (other
    markers included). *)
Theorem classifier_conflict_anywhere (before after : string) :
  getReasonFromPublishLog (before ++ "EPUBLISHCONFLICT" ++ after) = publishConflict.
Proof.
  unfold getReasonFromPublishLog.
  assert (H : JsString.includes "EPUBLISHCONFLICT" (before ++ "EPUBLISHCONFLICT" ++ after) = true).
  { apply includes_iff. exists before, after. reflexivity. }
  rewrite H. reflexivity.
Qed.

(** X6. The classifier answers badGateway or serverError - the
    two reasons the driver retries on - exactly when the log holds no
    [EPUBLISHCONFLICT], does not hold both [ENOENT] and
    [error path package.json], and holds [error code E502] or
    [error code E500]. *)
Theorem classifier_retryable_iff (text : string) :
  (getReasonFromPublishLog text = badGateway \/ getReasonFromPublishLog text = serverError)
  <-> ((~ exists a b, text = a ++ "EPUBLISHCONFLICT" ++ b)
       /\ ~ ((exists a b, text = a ++ "ENOENT" ++ b)
             /\ exists a b, text = a ++ "error path package.json" ++ b)
       /\ ((exists a b, text = a ++ "error code E502" ++ b)
           \/ exists a b, text = a ++ "error code E500" ++ b)).
Proof.
  rewrite <- !includes_iff. unfold getReasonFromPublishLog.
  destruct (JsString.includes "EPUBLISHCONFLICT" text);
  destruct (JsString.includes "ENOENT" text);
  destruct (JsString.includes "error path package.json" text);
  destruct (JsString.includes "error code E502" text);
  destruct (JsString.includes "error code E500" text); cbn;
  intuition congruence.
Qed.

(** X7. The classifier never answers timeout, and it answers the
    empty reason exactly when no rule applies: no [EPUBLISHCONFLICT], not
    both [ENOENT] and [error path package.json], no [error code E502] and
    no [error code E500]. *)
Theorem classifier_unclassified_iff (text : string) :
  getReasonFromPublishLog text <> timeout
  /\ (getReasonFromPublishLog text = RNone
      <-> (JsString.includes "EPUBLISHCONFLICT" text = false
           /\ (JsString.includes "ENOENT" text = false
               \/ JsString.includes "error path package.json" text = false)
           /\ JsString.includes "error code E502" text = false
           /\ JsString.includes "error code E500" text = false)).
Proof.
  unfold getReasonFromPublishLog.
  destruct (JsString.includes "EPUBLISHCONFLICT" text);
  destruct (JsString.includes "ENOENT" text);
  destruct (JsString.includes "error path package.json" text);
  destruct (JsString.includes "error code E502" text);
  destruct (JsString.includes "error code E500" text); cbn;
  (split; [discriminate|]); intuition congruence.
Qed.


(** ** More on the polling loop *)


Lemma poll_count_le env p n : poll_count env p n <= n.
Proof.
  unfold poll_count. pose proof (pending_polls_le env n p) as Hle.
  destruct (Nat.ltb_spec (pending_polls env p n) n); lia.
Qed.

Lemma persisted_before_poll cfg env r' i p n : forall l r,
  persisted r (l ++ poll_events cfg env r' i p n) = persisted r l.
Proof.
  induction l as [|e l IH]; intros r.
  - cbn [app]. rewrite <- (app_nil_r (poll_events _ _ _ _ _ _)).
    apply persisted_poll_events.
  - destruct e; cbn [app persisted]; rewrite IH; reflexivity.
Qed.

Lemma polled_ids_app : forall a b, polled_ids (a ++ b) = (polled_ids a ++ polled_ids b)%list.
Proof.
  induction a as [|e a IH]; intros b; [reflexivity|].
  destruct e; cbn; rewrite IH; reflexivity.
Qed.

Lemma checkBuildPipelines_run cfg env w :
  checkBuildPipelines cfg env w
  = (Returned (poll_answer env (polls w) (retries cfg)),
     mkWorld (release w)
       (trace w
          ++ LogInfo (CheckPipelines (Release.id (release w)) (Release.build_id (release w)))
          :: poll_events cfg env (release w) 0 (polls w) (retries cfg))
       (polls w + poll_count env (polls w) (retries cfg))).
Proof.
  unfold checkBuildPipelines, bind, this_release, emit.
  rewrite check_loop_run. cbn [release trace polls].
  rewrite <- app_assoc. reflexivity.
Qed.


(** X9. Polling leaves the builder's release alone, fetches at
    most [retries] times, always for the release's build id, and neither
    updates the record store nor queues a build. *)
Theorem polling_is_bounded_and_read_only
    (cfg : Config) (env : Env) (w : World) (r0 : Release.t) :
  let w' := snd (checkBuildPipelines cfg env w) in
  release w' = release w
  /\ polls w' - polls w <= retries cfg
  /\ polled_ids (trace w')
     = (polled_ids (trace w)
          ++ repeat (Release.build_id (release w)) (polls w' - polls w))%list
  /\ persisted r0 (trace w') = persisted r0 (trace w)
  /\ filter is_queue (trace w') = filter is_queue (trace w).
Proof.
  rewrite checkBuildPipelines_run. cbn [snd release trace polls].
  pose proof (poll_count_le env (polls w) (retries cfg)) as Hle.
  replace (polls w + poll_count env (polls w) (retries cfg) - polls w)
    with (poll_count env (polls w) (retries cfg)) by lia.
  split; [reflexivity|]. split; [exact Hle|]. split; [|split].
  - rewrite polled_ids_app. cbn [polled_ids].
    rewrite <- (app_nil_r (poll_events _ _ _ _ _ _)), polled_poll_events.
    cbn [polled_ids]. rewrite app_nil_r. reflexivity.
  - change (LogInfo ?m :: ?l) with ([LogInfo m] ++ l)%list.
    rewrite app_assoc, persisted_before_poll.
    clear. revert r0. induction (trace w) as [|e l IH]; intros r0; [reflexivity|].
    destruct e; cbn [app persisted]; rewrite IH; reflexivity.
  - rewrite filter_app. cbn [filter is_queue].
    rewrite <- (app_nil_r (poll_events _ _ _ _ _ _)), queue_poll_events.
    cbn [filter]. rewrite app_nil_r. reflexivity.
Qed.

Lemma sum_backoff step : forall k i,
  (2 * fold_right Z.add 0 (map (fun j => step * Z.of_nat (j + 1)) (seq i k))
   = step * Z.of_nat k * (2 * Z.of_nat i + Z.of_nat k + 1))%Z.
Proof.
  induction k as [|k IH]; intros i; cbn [seq map fold_right]; [lia|].
  rewrite Z.mul_add_distr_l, IH. nia.
Qed.

(** X10. When no answer within the budget is terminal, the loop
    waits [retries] times, and the waits add up to
    [retryIntervalStep * retries * (retries + 1) / 2]. *)
Theorem polling_total_wait_when_exhausted (cfg : Config) (env : Env) (w : World) :
  (forall j, j < retries cfg -> terminal (builds env (polls w + j)) = false) ->
  exists waits,
    sleeps (trace (snd (checkBuildPipelines cfg env w))) = (sleeps (trace w) ++ waits)%list
    /\ length waits = retries cfg
    /\ (2 * fold_right Z.add 0 waits
        = retryIntervalStep cfg * Z.of_nat (retries cfg) * (Z.of_nat (retries cfg) + 1))%Z.
Proof.
  intros Hall.
  exists (map (fun j => retryIntervalStep cfg * Z.of_nat (j + 1))%Z (seq 0 (retries cfg))).
  rewrite checkBuildPipelines_run. cbn [snd trace].
  unfold poll_events.
  rewrite (pending_polls_first env (retries cfg) (retries cfg) (polls w));
    [|lia|exact Hall|lia].
  rewrite Nat.ltb_irrefl, app_nil_r, sleeps_app. cbn [sleeps].
  rewrite sleeps_attempts.
  split; [reflexivity|]. split; [rewrite length_map, length_seq; reflexivity|].
  rewrite sum_backoff. lia.
Qed.

Lemma polling_total_wait_when_exhausted_witness :
  exists waits,
    sleeps (trace (snd (checkBuildPipelines Scenario.cfg Scenario.stalled
                          (new_builder Scenario.r_timed_out))))
    = (sleeps (trace (new_builder Scenario.r_timed_out)) ++ waits)%list
    /\ length waits = 3
    /\ (2 * fold_right Z.add 0 waits = 1000 * 3 * (3 + 1))%Z.
Proof.
  apply (polling_total_wait_when_exhausted Scenario.cfg Scenario.stalled
           (new_builder Scenario.r_timed_out)).
  intros j Hj. reflexivity.
Defined.


(** ** More on the driver *)

(** Split on every way the job can end, remembering the tests taken. *)
Ltac each_outcome_eqn :=
  repeat (first
    [ match goal with
      | |- context [reason_eqb (getReasonFromPublishLog ?t) _] =>
          destruct (getReasonFromPublishLog t) eqn:?
      end
    | match goal with
      | |- context [if ?c then _ else _] => destruct c eqn:?
      end ]; run_job).

(** Every run of [build], case by case, with its trace laid out. *)
Ltac every_run r :=
  destruct r as [id pk ver tg st rbid rs pl];
  destruct st, rbid; run_job;
  try (destruct (reason_eqb rs timeout) eqn:?; run_job);
  try run_poll;
  try (destruct (poll_answer _ 0 _) as [[bi bs br]|] eqn:?; run_job);
  each_outcome_eqn; flat_trace.

(** X11. In every run of the driver all fetches of the build status
    ask for one and the same build id, the one the release holds when the
    run ends, and there are at most [retries] of them. *)
Theorem build_polls_one_build (cfg : Config) (env : Env) (r : Release.t) :
  let w := snd (run cfg env r) in
  polled_ids (trace w) = repeat (Release.build_id (release w)) (polls w)
  /\ polls w <= retries cfg.
Proof.
  cbv zeta.
  pose proof (poll_count_le env 0 (retries cfg)) as Hle.
  every_run r;
    (split; [cbn [polled_ids]; rewrite ?polled_poll_events; cbn [polled_ids];
             rewrite ?app_nil_r; reflexivity | cbn; lia]).
Qed.

Lemma reason_eqb_eq a b : reason_eqb a b = true <-> a = b.
Proof. destruct a, b; cbn; split; intros H; congruence. Qed.

Lemma reason_eqb_neq a b : reason_eqb a b = false <-> a <> b.
Proof. destruct a, b; cbn; split; intros H; congruence. Qed.

Ltac reason_facts :=
  repeat match goal with
         | H : reason_eqb _ _ = true |- _ => apply reason_eqb_eq in H
         | H : reason_eqb _ _ = false |- _ => apply reason_eqb_neq in H
         end.

(** X12. A run of the driver queues at most one build, and it
    queues one exactly when the release is not succeeded and is pending, or
    failed for a reason other than timeout, or has an empty build id. *)
Theorem build_queues_at_most_once (cfg : Config) (env : Env) (r : Release.t) :
  let queued_builds := length (filter is_queue (trace (snd (run cfg env r)))) in
  queued_builds <= 1
  /\ (queued_builds = 1 <->
      Release.state r <> succeeded
      /\ (Release.state r = pending
          \/ (Release.state r = failed /\ Release.reason r <> timeout)
          \/ Release.build_id r = "")).
Proof.
  cbv zeta.
  every_run r; reason_facts;
    cbn [filter is_queue]; rewrite ?queue_poll_events; cbn;
    (split; [lia|]); intuition (try congruence; try lia).
Qed.

Lemma thrown_leaves (cfg : Config) (env : Env) (r : Release.t) (e : Error) :
  fst (run cfg env r) = Thrown e ->
  let r' := release (snd (run cfg env r)) in
  Release.state r' = failed
  /\ Release.build_id r' <> ""
  /\ ((e = PipelinesTimeout (Release.id r) (Release.build_id r')
       /\ Release.reason r' = timeout)
      \/ (exists s res,
            e = PipelinesFailedError (Release.id r) (Release.build_id r') s res
            /\ (Release.reason r' = badGateway \/ Release.reason r' = serverError))).
Proof.
  cbv zeta.
  every_run r; intros He; try discriminate He;
    injection He as <-;
    (split; [reflexivity|]);
    (split; [first [discriminate | apply of_int_not_empty]|]);
    first [ left; split; reflexivity
          | right; eexists; eexists; split;
            [reflexivity | first [left; reflexivity | right; reflexivity]] ].
Qed.



(** X14. When polling ends with a build that is Completed and
    Succeeded, the driver returns normally; its last two events are the
    update that sets the state to succeeded and the success log line; the
    update names the state only, so reason and publish_log keep the values
    they had before the run. *)
Theorem success_is_persisted
    (cfg : Config) (env : Env) (r : Release.t) (k : nat) (b : Build.t) :
  Release.state r <> succeeded ->
  polling_ends cfg env k b ->
  Build.status b = Completed ->
  Build.result b = Some Succeeded ->
  let w := snd (run cfg env r) in
  fst (run cfg env r) = Returned tt
  /\ ends_with (trace w)
       [ UpdateRelease (Release.id r) (mkFields (Some succeeded) None None None);
         LogInfo (PipelinesSucceeded (Release.id r) (Release.build_id (release w))) ]
  /\ Release.state (release w) = succeeded
  /\ Release.reason (release w) = Release.reason r
  /\ Release.publish_log (release w) = Release.publish_log r.
Proof.
  intros Hs Hend Hst Hres w. subst w.
  pose proof (poll_answer_found cfg env k b Hend) as Hans.
  destruct r as [id pk ver tg st rbid rs pl]. cbn [Release.state] in Hs.
  destruct b as [bi bs br]. cbn [Build.status Build.result] in Hst, Hres. subst bs br.
  destruct st, rbid; try congruence; run_job;
    try (destruct (reason_eqb rs timeout); run_job);
    run_poll; rewrite Hans; run_job; flat_trace;
    (split; [reflexivity|]); (split; [trace_suffix|]); repeat split.
Qed.

Lemma success_is_persisted_witness :
  polling_ends Scenario.cfg Scenario.publishing 1 Scenario.completed_succeeded
  /\ fst (run Scenario.cfg Scenario.publishing Scenario.r_pending) = Returned tt
  /\ Release.state (release (snd (run Scenario.cfg Scenario.publishing Scenario.r_pending)))
     = succeeded.
Proof.
  assert (Hs : Release.state Scenario.r_pending <> succeeded) by discriminate.
  assert (Hend : polling_ends Scenario.cfg Scenario.publishing 1
                   Scenario.completed_succeeded) by scripted_poll.
  destruct (success_is_persisted Scenario.cfg Scenario.publishing Scenario.r_pending 1
              Scenario.completed_succeeded Hs Hend eq_refl eq_refl)
    as (Hret & _ & Hst & _).
  split; [exact Hend|]. split; [exact Hret | exact Hst].
Defined.

(** X15. When polling ends with a terminal build that is neither
    Completed and Succeeded nor Completed and Failed (a cancellation, a
    partial success), the driver returns normally with the release failed,
    and reason and publish_log are the ones from before the run. *)
Theorem cancellation_keeps_reason
    (cfg : Config) (env : Env) (r : Release.t) (k : nat) (b : Build.t) :
  Release.state r <> succeeded ->
  polling_ends cfg env k b ->
  ~ (Build.status b = Completed /\ Build.result b = Some Succeeded) ->
  ~ (Build.status b = Completed /\ Build.result b = Some Failed) ->
  let w := snd (run cfg env r) in
  fst (run cfg env r) = Returned tt
  /\ Release.state (release w) = failed
  /\ Release.reason (release w) = Release.reason r
  /\ Release.publish_log (release w) = Release.publish_log r.
Proof.
  intros Hs Hend Hnot_ok Hnot_failed w. subst w.
  pose proof (poll_answer_found cfg env k b Hend) as Hans.
  destruct r as [id pk ver tg st rbid rs pl]. cbn [Release.state] in Hs.
  destruct b as [bi bs br]. cbn [Build.status Build.result] in Hnot_ok, Hnot_failed.
  assert (Hok : status_eqb bs Completed && result_is br Succeeded = false).
  { destruct (status_eqb bs Completed && result_is br Succeeded) eqn:E; [|reflexivity].
    apply completed_with in E. contradiction. }
  assert (Hcf : status_eqb bs Completed && result_is br Failed = false).
  { destruct (status_eqb bs Completed && result_is br Failed) eqn:E; [|reflexivity].
    apply completed_with in E. contradiction. }
  destruct st, rbid; try congruence; run_job;
    try (destruct (reason_eqb rs timeout); run_job);
    run_poll; rewrite Hans; run_job; rewrite Hok; run_job; rewrite Hcf; run_job;
    repeat split.
Qed.

Lemma cancellation_keeps_reason_witness :
  polling_ends Scenario.cfg Scenario.cancelled 1 Scenario.cancelling
  /\ Release.state (release (snd (run Scenario.cfg Scenario.cancelled Scenario.r_timed_out)))
     = failed
  /\ Release.reason (release (snd (run Scenario.cfg Scenario.cancelled Scenario.r_timed_out)))
     = timeout.
Proof.
  assert (Hs : Release.state Scenario.r_timed_out <> succeeded) by discriminate.
  assert (Hend : polling_ends Scenario.cfg Scenario.cancelled 1 Scenario.cancelling)
    by scripted_poll.
  assert (Hnot_ok : ~ (Build.status Scenario.cancelling = Completed
                       /\ Build.result Scenario.cancelling = Some Succeeded)).
  { intros [Hc _]. discriminate Hc. }
  assert (Hnot_failed : ~ (Build.status Scenario.cancelling = Completed
                           /\ Build.result Scenario.cancelling = Some Failed)).
  { intros [Hc _]. discriminate Hc. }
  destruct (cancellation_keeps_reason Scenario.cfg Scenario.cancelled Scenario.r_timed_out
              1 Scenario.cancelling Hs Hend Hnot_ok Hnot_failed)
    as (_ & Hst & Hwhy & _).
  split; [exact Hend|]. split; [exact Hst | exact Hwhy].
Defined.

(** X16. A timed-out release whose build turns out cancelled (or ends in
    any terminal way other than Completed with Succeeded or Failed) comes
    out of the run exactly as it went in - failed, reason timeout, same
    build id, same log - and nothing is thrown: a later run finds the same
    release again. *)
Theorem cancelled_resume_changes_nothing
    (cfg : Config) (env : Env) (r : Release.t) (k : nat) (b : Build.t) :
  Release.state r = failed ->
  Release.reason r = timeout ->
  Release.build_id r <> "" ->
  polling_ends cfg env k b ->
  ~ (Build.status b = Completed /\ Build.result b = Some Succeeded) ->
  ~ (Build.status b = Completed /\ Build.result b = Some Failed) ->
  fst (run cfg env r) = Returned tt
  /\ release (snd (run cfg env r)) = r.
Proof.
  intros Hst Hwhy Hbid Hend Hnot_ok Hnot_failed.
  pose proof (poll_answer_found cfg env k b Hend) as Hans.
  destruct r as [id pk ver tg st rbid rs pl].
  cbn [Release.state Release.reason Release.build_id] in Hst, Hwhy, Hbid. subst st rs.
  destruct rbid as [|c rbid]; [congruence|].
  destruct b as [bi bs br]. cbn [Build.status Build.result] in Hnot_ok, Hnot_failed.
  assert (Hok : status_eqb bs Completed && result_is br Succeeded = false).
  { destruct (status_eqb bs Completed && result_is br Succeeded) eqn:E; [|reflexivity].
    apply completed_with in E. contradiction. }
  assert (Hcf : status_eqb bs Completed && result_is br Failed = false).
  { destruct (status_eqb bs Completed && result_is br Failed) eqn:E; [|reflexivity].
    apply completed_with in E. contradiction. }
  run_job. run_poll. rewrite Hans. run_job. rewrite Hok. run_job. rewrite Hcf. run_job.
  split; reflexivity.
Qed.

Lemma cancelled_resume_changes_nothing_witness :
  polling_ends Scenario.cfg Scenario.cancelled 1 Scenario.cancelling
  /\ release (snd (run Scenario.cfg Scenario.cancelled Scenario.r_timed_out))
     = Scenario.r_timed_out.
Proof.
  assert (Hbid : Release.build_id Scenario.r_timed_out <> "") by discriminate.
  assert (Hend : polling_ends Scenario.cfg Scenario.cancelled 1 Scenario.cancelling)
    by scripted_poll.
  assert (Hnot_ok : ~ (Build.status Scenario.cancelling = Completed
                       /\ Build.result Scenario.cancelling = Some Succeeded)).
  { intros [Hc _]. discriminate Hc. }
  assert (Hnot_failed : ~ (Build.status Scenario.cancelling = Completed
                           /\ Build.result Scenario.cancelling = Some Failed)).
  { intros [Hc _]. discriminate Hc. }
  destruct (cancelled_resume_changes_nothing Scenario.cfg Scenario.cancelled
              Scenario.r_timed_out 1 Scenario.cancelling eq_refl eq_refl Hbid Hend
              Hnot_ok Hnot_failed) as [_ Hsame].
  split; [exact Hend | exact Hsame].
Defined.

(** X17. A release found in state building with a build id is
    polled straight away: the run starts with the api handle, the log line
    and the polling of that build id, with no update before; no build is
    queued, the build id is kept, and at most two rows are written. *)
Theorem interrupted_run_polls_without_update
    (cfg : Config) (env : Env) (r : Release.t) :
  Release.state r = building ->
  Release.build_id r <> "" ->
  let w := snd (run cfg env r) in
  starts_with (trace w)
    (GetBuildApi
       :: LogInfo (CheckPipelines (Release.id r) (Release.build_id r))
       :: poll_events cfg env r 0 0 (retries cfg))
  /\ filter is_queue (trace w) = []
  /\ Release.build_id (release w) = Release.build_id r
  /\ length (persisted r (trace w)) <= 2.
Proof.
  intros Hst Hbid w. subst w.
  destruct r as [id pk ver tg st rbid rs pl].
  cbn [Release.state Release.build_id Release.id] in *. subst st.
  destruct rbid as [|c rbid]; [congruence|].
  run_job. run_poll.
  destruct (poll_answer env 0 (retries cfg)) as [[bi bs br]|]; run_job; each_outcome;
    flat_trace;
    (split; [eexists; reflexivity|]);
    (split; [cbn [filter is_queue]; rewrite queue_poll_events; reflexivity|]);
    (split; [reflexivity|]);
    cbn [persisted]; rewrite persisted_poll_events; cbn; lia.
Qed.

Lemma interrupted_run_polls_without_update_witness :
  Release.build_id Scenario.r_building <> ""
  /\ filter is_queue (trace (snd (run Scenario.cfg Scenario.interrupted Scenario.r_building)))
     = []
  /\ Release.build_id (release (snd (run Scenario.cfg Scenario.interrupted
                                       Scenario.r_building))) = "41".
Proof.
  assert (Hbid : Release.build_id Scenario.r_building <> "") by discriminate.
  destruct (interrupted_run_polls_without_update Scenario.cfg Scenario.interrupted
              Scenario.r_building eq_refl Hbid) as (_ & Hq & Hkept & _).
  split; [exact Hbid|]. split; [exact Hq | exact Hkept].
Defined.

(** X18. A release found in state building without a build id
    gets a fresh build with no state update first: the run starts with the
    package and project reads, the one queued build, the write of its id
    and the fixed delay, and polling asks for the new id. *)
Theorem interrupted_run_without_build_queues
    (cfg : Config) (env : Env) (r : Release.t) :
  Release.state r = building ->
  Release.build_id r = "" ->
  let w := snd (run cfg env r) in
  let new_id := JsString.of_int (Build.id (queued env)) in
  starts_with (trace w) (queue_events cfg env r new_id)
  /\ length (filter is_queue (trace w)) = 1
  /\ polled_ids (trace w) = repeat new_id (polls w)
  /\ Release.build_id (release w) = new_id.
Proof.
  intros Hst Hbid w new_id. subst w new_id.
  destruct r as [id pk ver tg st rbid rs pl].
  cbn [Release.state Release.build_id Release.id] in *. subst st rbid.
  unfold queue_events, build_request.
  run_job. run_poll.
  destruct (poll_answer env 0 (retries cfg)) as [[bi bs br]|]; run_job; each_outcome;
    flat_trace;
    (split; [eexists; reflexivity|]);
    (split; [cbn [filter is_queue]; rewrite queue_poll_events; reflexivity|]);
    (split; [cbn [polled_ids]; rewrite polled_poll_events; cbn [polled_ids];
             rewrite app_nil_r; reflexivity|]);
    reflexivity.
Qed.

Lemma interrupted_run_without_build_queues_witness :
  Release.build_id Scenario.r_building_unbuilt = ""
  /\ length (filter is_queue
               (trace (snd (run Scenario.cfg Scenario.interrupted_early
                              Scenario.r_building_unbuilt)))) = 1
  /\ Release.build_id (release (snd (run Scenario.cfg Scenario.interrupted_early
                                       Scenario.r_building_unbuilt))) = "55".
Proof.
  destruct (interrupted_run_without_build_queues Scenario.cfg Scenario.interrupted_early
              Scenario.r_building_unbuilt eq_refl eq_refl) as (_ & Hq & _ & Hnew).
  split; [reflexivity|]. split; [exact Hq | exact Hnew].
Defined.

Lemma resumed_run (cfg : Config) (env : Env) (r : Release.t) :
  Release.state r = failed ->
  Release.reason r = timeout ->
  Release.build_id r <> "" ->
  let w := snd (run cfg env r) in
  hd_error (trace w)
    = Some (UpdateRelease (Release.id r) (mkFields (Some building) None None None))
  /\ filter is_queue (trace w) = []
  /\ polled_ids (trace w) = repeat (Release.build_id r) (polls w).
Proof.
  intros Hst Hwhy Hbid w. subst w.
  destruct r as [id pk ver tg st rbid rs pl].
  cbn [Release.state Release.reason Release.build_id Release.id] in *. subst st rs.
  destruct rbid as [|c rbid]; [congruence|].
  run_job. run_poll.
  destruct (poll_answer env 0 (retries cfg)) as [[bi bs br]|]; run_job; each_outcome;
    flat_trace;
    (split; [reflexivity|]);
    (split; [cbn [filter is_queue]; rewrite queue_poll_events; reflexivity|]);
    cbn [polled_ids]; rewrite polled_poll_events; cbn [polled_ids];
    rewrite app_nil_r; reflexivity.
Qed.

Lemma requeued_run (cfg : Config) (env : Env) (r : Release.t) :
  Release.state r = failed ->
  Release.reason r <> timeout ->
  let w := snd (run cfg env r) in
  let new_id := JsString.of_int (Build.id (queued env)) in
  hd_error (trace w)
    = Some (UpdateRelease (Release.id r) (mkFields (Some building) (Some "") None None))
  /\ length (filter is_queue (trace w)) = 1
  /\ polled_ids (trace w) = repeat new_id (polls w)
  /\ Release.build_id (release w) = new_id.
Proof.
  intros Hst Hwhy w new_id. subst w new_id.
  destruct r as [id pk ver tg st rbid rs pl].
  cbn [Release.state Release.reason Release.build_id Release.id] in *. subst st.
  destruct rs; try congruence;
    run_job; run_poll;
    destruct (poll_answer env 0 (retries cfg)) as [[bi bs br]|]; run_job; each_outcome;
    flat_trace;
    (split; [reflexivity|]);
    (split; [cbn [filter is_queue]; rewrite queue_poll_events; reflexivity|]);
    (split; [cbn [polled_ids]; rewrite polled_poll_events; cbn [polled_ids];
             rewrite app_nil_r; reflexivity|]);
    reflexivity.
Qed.

Lemma identity_kept (cfg : Config) (env : Env) (r : Release.t) :
  Release.id (release (snd (run cfg env r))) = Release.id r.
Proof. every_run r; reflexivity. Qed.

(** X19. After a run that threw the timeout error, any later run
    on the release as it was left resumes: the build id named in the error
    is the release's, it is not empty, the first event is the update to
    building that names the state only, no build is queued, and every poll
    asks for that build id. *)
Theorem retry_after_timeout_resumes
    (cfg cfg' : Config) (env env' : Env) (r : Release.t) (i : Z) (b : string) :
  fst (run cfg env r) = Thrown (PipelinesTimeout i b) ->
  let r' := release (snd (run cfg env r)) in
  let w' := snd (run cfg' env' r') in
  b = Release.build_id r'
  /\ b <> ""
  /\ hd_error (trace w')
     = Some (UpdateRelease (Release.id r) (mkFields (Some building) None None None))
  /\ filter is_queue (trace w') = []
  /\ polled_ids (trace w') = repeat b (polls w').
Proof.
  intros He r' w'. subst r' w'.
  destruct (thrown_leaves cfg env r _ He) as (Hst & Hbid & Hcase).
  destruct Hcase as [[Heq Hwhy]|(s & res & Heq & _)]; [|discriminate Heq].
  injection Heq as _ ->.
  destruct (resumed_run cfg' env' _ Hst Hwhy Hbid) as (Hhd & Hq & Hp).
  rewrite identity_kept in Hhd. auto.
Qed.

Lemma retry_after_timeout_resumes_witness :
  fst (run Scenario.cfg Scenario.stalled Scenario.r_pending)
    = Thrown (PipelinesTimeout 7 "55")
  /\ filter is_queue
       (trace (snd (run Scenario.cfg Scenario.stalled
                      (release (snd (run Scenario.cfg Scenario.stalled
                                       Scenario.r_pending)))))) = [].
Proof.
  assert (He : fst (run Scenario.cfg Scenario.stalled Scenario.r_pending)
               = Thrown (PipelinesTimeout 7 "55")) by reflexivity.
  destruct (retry_after_timeout_resumes Scenario.cfg Scenario.cfg Scenario.stalled
              Scenario.stalled Scenario.r_pending 7 "55" He) as (_ & _ & _ & Hq & _).
  split; [exact He | exact Hq].
Defined.

(** X20. After a run that threw the pipelines-failed error, any
    later run on the release as it was left starts afresh: the first event
    is the update to building with the build id emptied, exactly one build
    is queued, and the new id is written and polled. *)
Theorem retry_after_transient_failure_requeues
    (cfg cfg' : Config) (env env' : Env) (r : Release.t)
    (i : Z) (b : string) (s : BuildStatus) (res : option BuildResult) :
  fst (run cfg env r) = Thrown (PipelinesFailedError i b s res) ->
  let r' := release (snd (run cfg env r)) in
  let w' := snd (run cfg' env' r') in
  let new_id := JsString.of_int (Build.id (queued env')) in
  hd_error (trace w')
    = Some (UpdateRelease (Release.id r) (mkFields (Some building) (Some "") None None))
  /\ length (filter is_queue (trace w')) = 1
  /\ polled_ids (trace w') = repeat new_id (polls w')
  /\ Release.build_id (release w') = new_id.
Proof.
  intros He r' w' new_id. subst r' w' new_id.
  destruct (thrown_leaves cfg env r _ He) as (Hst & Hbid & Hcase).
  destruct Hcase as [[Heq _]|(s' & res' & _ & Hwhy)]; [discriminate Heq|].
  assert (Hnt : Release.reason (release (snd (run cfg env r))) <> timeout).
  { destruct Hwhy as [-> | ->]; discriminate. }
  destruct (requeued_run cfg' env' _ Hst Hnt) as (Hhd & Hrest).
  rewrite identity_kept in Hhd. auto.
Qed.

Lemma retry_after_transient_failure_requeues_witness :
  fst (run Scenario.cfg Scenario.gateway_down Scenario.r_pending)
    = Thrown (PipelinesFailedError 7 "55" Completed (Some Failed))
  /\ length (filter is_queue
               (trace (snd (run Scenario.cfg Scenario.gateway_down
                              (release (snd (run Scenario.cfg Scenario.gateway_down
                                               Scenario.r_pending))))))) = 1.
Proof.
  assert (He : fst (run Scenario.cfg Scenario.gateway_down Scenario.r_pending)
               = Thrown (PipelinesFailedError 7 "55" Completed (Some Failed)))
    by reflexivity.
  destruct (retry_after_transient_failure_requeues Scenario.cfg Scenario.cfg
              Scenario.gateway_down Scenario.gateway_down Scenario.r_pending
              7 "55" Completed (Some Failed) He) as (_ & Hq & _).
  split; [exact He | exact Hq].
Defined.

Lemma skipped_run (cfg : Config) (env : Env) (r : Release.t) :
  Release.state r = succeeded ->
  run cfg env r
  = (Returned tt, mkWorld r [LogInfo (SkipForState (Release.id r) succeeded)] 0).
Proof.
  intros Hst. destruct r as [id pk ver tg st rbid rs pl].
  cbn [Release.state] in Hst. subst st. reflexivity.
Qed.

(** X21. After a run whose polling ended with a build Completed
    and Succeeded, any later run on the release as it was left is skipped:
    it returns at once, logs the skip and leaves the release as it is. *)
Theorem rerun_after_success_is_skipped
    (cfg cfg' : Config) (env env' : Env) (r : Release.t) (k : nat) (b : Build.t) :
  Release.state r <> succeeded ->
  polling_ends cfg env k b ->
  Build.status b = Completed ->
  Build.result b = Some Succeeded ->
  let r' := release (snd (run cfg env r)) in
  run cfg' env' r'
  = (Returned tt, mkWorld r' [LogInfo (SkipForState (Release.id r) succeeded)] 0).
Proof.
  intros Hs Hend Hst Hres r'. subst r'.
  assert (Hdone : Release.state (release (snd (run cfg env r))) = succeeded).
  { pose proof (poll_answer_found cfg env k b Hend) as Hans.
    destruct r as [id pk ver tg st rbid rs pl]. cbn [Release.state] in Hs.
    destruct b as [bi bs br]. cbn [Build.status Build.result] in Hst, Hres. subst bs br.
    destruct st, rbid; try congruence; run_job;
      try (destruct (reason_eqb rs timeout); run_job);
      run_poll; rewrite Hans; run_job; reflexivity. }
  rewrite (skipped_run cfg' env' _ Hdone), identity_kept. reflexivity.
Qed.

Lemma rerun_after_success_is_skipped_witness :
  polling_ends Scenario.cfg Scenario.publishing 1 Scenario.completed_succeeded
  /\ fst (run Scenario.cfg Scenario.publishing
            (release (snd (run Scenario.cfg Scenario.publishing Scenario.r_pending))))
     = Returned tt.
Proof.
  assert (Hs : Release.state Scenario.r_pending <> succeeded) by discriminate.
  assert (Hend : polling_ends Scenario.cfg Scenario.publishing 1
                   Scenario.completed_succeeded) by scripted_poll.
  split; [exact Hend|].
  rewrite (rerun_after_success_is_skipped Scenario.cfg Scenario.cfg Scenario.publishing
             Scenario.publishing Scenario.r_pending 1 Scenario.completed_succeeded
             Hs Hend eq_refl eq_refl).
  reflexivity.
Defined.

(** X22. With a retry budget of zero the driver never asks the
    pipeline for a status: on every release that is not succeeded it writes
    failed with reason timeout and throws the timeout error. *)
Theorem no_retries_always_times_out (cfg : Config) (env : Env) (r : Release.t) :
  retries cfg = 0 ->
  Release.state r <> succeeded ->
  let w := snd (run cfg env r) in
  fst (run cfg env r)
    = Thrown (PipelinesTimeout (Release.id r) (Release.build_id (release w)))
  /\ polled_ids (trace w) = []
  /\ polls w = 0
  /\ Release.state (release w) = failed
  /\ Release.reason (release w) = timeout.
Proof.
  intros Hnone Hs w. subst w.
  destruct r as [id pk ver tg st rbid rs pl]. cbn [Release.state] in Hs.
  destruct st, rbid; try congruence; run_job;
    try (destruct (reason_eqb rs timeout); run_job);
    run_poll; rewrite Hnone;
    unfold poll_answer, poll_events, poll_count;
    cbn [pending_polls Nat.ltb Nat.leb attempts app Nat.add]; run_job;
    repeat split.
Qed.

Lemma no_retries_always_times_out_witness :
  retries Scenario.cfg_no_retries = 0
  /\ fst (run Scenario.cfg_no_retries Scenario.stalled Scenario.r_pending)
     = Thrown (PipelinesTimeout 7 "55")
  /\ polled_ids (trace (snd (run Scenario.cfg_no_retries Scenario.stalled
                               Scenario.r_pending))) = [].
Proof.
  assert (Hs : Release.state Scenario.r_pending <> succeeded) by discriminate.
  destruct (no_retries_always_times_out Scenario.cfg_no_retries Scenario.stalled
              Scenario.r_pending eq_refl Hs) as (Hthrown & Hnone & _).
  split; [reflexivity|]. split; [exact Hthrown | exact Hnone].
Defined.
